(** * SnapShelf: the site-to-store synthesis pipeline

    A shallow embedding of the scraper's product extraction
    (aiScraperService.js), the design analyzer (designAnalyzerService.js)
    and the template synthesizer (storeBuilderService.js), followed by the
    properties of the pipeline's specification that were checked on it.

    Conventions of the embedding:
    - a JavaScript string is a [string]; its characters are the code units
      0..255 (code units above 255 are outside the model);
    - [undefined]/[null] are [None]; an object field that may be absent is an
      [option];
    - a function that can throw returns a [result]; [try]/[catch] is
      [try_catch];
    - [console.error]/[console.log] write to a log nothing reads back; they
      are left out. *)

From Stdlib Require Import ZArith Ascii String DecimalString HexadecimalString.
From stdpp Require Import base option list strings gmap.

#[local] Open Scope Z_scope.

(** ** JavaScript values and primitives *)

Module JS.

(** Exceptions that the modelled code can meet. *)
Inductive error :=
| TypeError     (* a property read on undefined or null *)
| SyntaxError   (* JSON.parse on a text that is not JSON *)
| ServiceError. (* a rejected call to the completion service *)

Inductive result (A : Type) :=
| Ok (a : A)
| Raise (e : error).
Arguments Ok {A} a.
Arguments Raise {A} e.

#[export] Instance result_ret : MRet result := @Ok.
#[export] Instance result_bind : MBind result :=
  fun A B f m => match m with Ok a => f a | Raise e => Raise e end.

(** [try { body } catch (error) { handler }] *)
Definition try_catch {A} (body : result A) (handler : error -> result A) : result A :=
  match body with
  | Ok a => Ok a
  | Raise e => handler e
  end.

(** [xs.map(f)] for an [f] that may throw: the first exception stops the
    traversal. *)
Fixpoint map_result {A B} (f : A -> result B) (xs : list A) : result (list B) :=
  match xs with
  | [] => Ok []
  | x :: xs' => y ← f x; ys ← map_result f xs'; Ok (y :: ys)
  end.

(** *** Characters *)

Definition code (c : ascii) : Z := Z.of_N (N_of_ascii c).

Definition between (lo hi : Z) (c : ascii) : bool :=
  (lo <=? code c) && (code c <=? hi).

(** [\d] *)
Definition is_digit (c : ascii) : bool := between 48 57 c.

(** [\s], and the characters [trim] removes: TAB, LF, VT, FF, CR, space
    and the no-break space. *)
Definition is_space (c : ascii) : bool :=
  between 9 13 c || (code c =? 32) || (code c =? 160).

(** [[a-f\d]] under the [i] flag. *)
Definition is_hex_digit (c : ascii) : bool :=
  is_digit c || between 97 102 c || between 65 70 c.

(** [[a-f\d]] without the flag: what [toString(16)] prints. *)
Definition is_lower_hex_digit (c : ascii) : bool :=
  is_digit c || between 97 102 c.

(** The value of a digit in a radix up to 16, if it is one. *)
Definition digit_value (radix : Z) (c : ascii) : option Z :=
  let v := if is_digit c then Some (code c - 48)
           else if between 97 102 c then Some (code c - 87)
           else if between 65 70 c then Some (code c - 55)
           else None in
  v ≫= fun d => if d <? radix then Some d else None.

(** *** Strings *)

(** [p] longest prefix of characters satisfying [p], and the rest. *)
Fixpoint span (p : ascii -> bool) (s : string) : string * string :=
  match s with
  | String c t =>
      if p c then let '(a, b) := span p t in (String c a, b) else (EmptyString, s)
  | EmptyString => (EmptyString, EmptyString)
  end.

Fixpoint filter_chars (p : ascii -> bool) (s : string) : string :=
  match s with
  | String c t => if p c then String c (filter_chars p t) else filter_chars p t
  | EmptyString => EmptyString
  end.

Fixpoint map_chars (f : ascii -> ascii) (s : string) : string :=
  match s with
  | String c t => String (f c) (map_chars f t)
  | EmptyString => EmptyString
  end.

Fixpoint all_chars (p : ascii -> bool) (s : string) : bool :=
  match s with
  | String c t => p c && all_chars p t
  | EmptyString => true
  end.

(** [Some r] when [s] is [p] followed by [r]. *)
Fixpoint strip_prefix (p s : string) : option string :=
  match p, s with
  | EmptyString, _ => Some s
  | String a p', String b s' => if Ascii.eqb a b then strip_prefix p' s' else None
  | String _ _, EmptyString => None
  end.

(** [s.startsWith(p)] *)
Definition startsWith (p s : string) : bool := bool_decide (is_Some (strip_prefix p s)).

(** [s.includes(sub)] *)
Fixpoint includes (s sub : string) : bool :=
  startsWith sub s ||
  match s with
  | String _ t => includes t sub
  | EmptyString => false
  end.

(** [s.trim()] *)
Definition trim (s : string) : string :=
  String.rev (snd (span is_space (String.rev (snd (span is_space s))))).

(** [s.toLowerCase()] on the letters A-Z.  The only caller removes every
    character outside [a-z0-9] from the result, and no other character of
    the model lowercases into that range. *)
Definition toLowerCase (s : string) : string :=
  map_chars (fun c => if between 65 90 c then ascii_of_N (N_of_ascii c + 32) else c) s.

(** A string used as a condition: the empty string and undefined are falsy. *)
Definition truthy (v : option string) : option string :=
  match v with
  | Some EmptyString => None
  | _ => v
  end.

(** [v || d] on strings. *)
Definition or_str (v : option string) (d : string) : string :=
  default d (truthy v).

(** *** Numbers: the integer-valued part of Number *)

Inductive number :=
| Finite (z : Z)
| Infinity
| NaN.

(** Nearest double of a natural number, ties to even. *)
Definition to_double (n : Z) : number :=
  let k := Z.log2 n - 52 in
  if k <=? 0 then Finite n
  else
    let q := Z.shiftr n k in
    let r := Z.land n (Z.ones k) in
    let half := Z.shiftl 1 (k - 1) in
    let q' := if (half <? r) || ((r =? half) && Z.odd q) then q + 1 else q in
    let v := Z.shiftl q' k in
    if 2 ^ 1024 <=? v then Infinity else Finite v.

Fixpoint digits_value (radix acc : Z) (s : string) : Z :=
  match s with
  | String c t => digits_value radix (acc * radix + default 0 (digit_value radix c)) t
  | EmptyString => acc
  end.

(** [parseInt(s, radix)] for [s] without leading white space, sign or
    [0x]: the callers pass captures of [\d+] and of [[a-f\d]{2}] only. *)
Definition parseInt (s : string) (radix : Z) : number :=
  let '(ds, _) := span (fun c => bool_decide (is_Some (digit_value radix c))) s in
  match ds with
  | EmptyString => NaN
  | _ => to_double (digits_value radix 0 ds)
  end.

(** [n.toString(16)].  From 2^53 on the digits are those of the exact value;
    the language leaves them to the implementation there, and nothing below
    reads them: such a text has more than two digits. *)
Definition toString16 (n : number) : string :=
  match n with
  | Finite z => HexadecimalString.NilEmpty.string_of_uint (N.to_hex_uint (Z.to_N z))
  | Infinity => "Infinity"
  | NaN => "NaN"
  end.

(** [String(n)] for a natural number below 2^53, as a template literal
    prints it. *)
Definition toString10 (z : Z) : string :=
  DecimalString.NilEmpty.string_of_uint (N.to_uint (Z.to_N z)).

(** [`${v}`] for a string that may be undefined. *)
Definition interpolate (v : option string) : string := default "undefined" v.

End JS.
Import JS.


(** ** The parsed page (cheerio) *)

Module Dom.

#[local] Set Warnings "-register-all".

Inductive node :=
| Element (tag : string) (attribs : list (string * string)) (children : list node)
| Text (data : string).

(** One simple selector, of the kinds the scraper uses. *)
Inductive simple_selector :=
| ByClass (name : string)               (* .name *)
| HasAttr (name : string)               (* [name] *)
| AttrContains (name value : string)    (* [name*=value] *)
| AttrEquals (name value : string)      (* [name=value] *)
| ByTag (name : string).                (* name *)

(** A comma-separated group: an element matches when one member does. *)
Definition selector := list simple_selector.

Fixpoint assoc (key : string) (kvs : list (string * string)) : option string :=
  match kvs with
  | [] => None
  | (k, v) :: rest => if String.eqb k key then Some v else assoc key rest
  end.

(** [el.attr(name)]: undefined when the attribute is missing. *)
Definition attr (name : string) (n : node) : option string :=
  match n with
  | Element _ attribs _ => assoc name attribs
  | Text _ => None
  end.

(** The white-space separated words of an attribute value. *)
Fixpoint split_ws (cur s : string) : list string :=
  match s with
  | String c t =>
      if is_space c then String.rev cur :: split_ws EmptyString t
      else split_ws (String c cur) t
  | EmptyString => [String.rev cur]
  end.

Definition has_class (name value : string) : bool :=
  existsb (String.eqb name) (split_ws EmptyString value).

Definition matches_simple (sel : simple_selector) (n : node) : bool :=
  match n with
  | Text _ => false
  | Element tag attribs _ =>
      match sel with
      | ByClass c => from_option (has_class c) false (assoc "class" attribs)
      | HasAttr a => bool_decide (is_Some (assoc a attribs))
      | AttrContains a v => from_option (fun x => includes x v) false (assoc a attribs)
      | AttrEquals a v => from_option (String.eqb v) false (assoc a attribs)
      | ByTag t => String.eqb t tag
      end
  end.

Definition matches (sel : selector) (n : node) : bool :=
  existsb (fun s => matches_simple s n) sel.

(** An element and the elements below it, in document order. *)
Fixpoint subtree (n : node) : list node :=
  match n with
  | Element _ _ children => n :: flat_map subtree children
  | Text _ => []
  end.

Definition descendants (n : node) : list node :=
  match n with
  | Element _ _ children => flat_map subtree children
  | Text _ => []
  end.

(** [$(selector)]: the matching elements of the page, in document order. *)
Definition select (sel : selector) (page : list node) : list node :=
  List.filter (matches sel) (flat_map subtree page).

(** [el.find(selector)]: the matching elements below [el]. *)
Definition find (sel : selector) (el : node) : list node :=
  List.filter (matches sel) (descendants el).

(** [el.text()]: the text below [el], concatenated. *)
Fixpoint text (n : node) : string :=
  match n with
  | Text data => data
  | Element _ _ children => fold_right (fun c acc => text c +:+ acc) EmptyString children
  end.

End Dom.
Import Dom.

(** ** aiScraperService.js: product extraction *)

Record Product := {
  name : string;
  price : string;
  image : option string;
  link : option string
}.

(** The selector list of [extractProducts], in the order of the source. *)
Definition productSelectors : list selector :=
  [ [ByClass "product"]; [ByClass "product-item"]; [ByClass "product-card"];
    [AttrContains "itemtype" "Product"]; [HasAttr "data-product"] ].

(** [el.find(sel).first().text().trim()]: the text of an empty selection is
    the empty string. *)
Definition first_text (sel : selector) (el : node) : string :=
  trim (from_option text EmptyString (head (find sel el))).

(** [el.find(sel).first().attr(a)] *)
Definition first_attr (sel : selector) (a : string) (el : node) : option string :=
  head (find sel el) ≫= attr a.

(** The record pushed for one matched element. *)
Definition product_of (el : node) : Product :=
  {| name := first_text [AttrEquals "itemprop" "name"; ByClass "product-title";
                         ByClass "product-name"; ByTag "h2"; ByTag "h3"] el;
     price := first_text [AttrEquals "itemprop" "price"; ByClass "price";
                          ByClass "product-price"] el;
     image := first_attr [ByTag "img"] "src" el;
     link := first_attr [ByTag "a"] "href" el |}.

(** The [for (const selector of ...)] loop: the first selector with a match
    pushes its first ten elements and breaks. *)
Fixpoint extract_loop (page : list node) (selectors : list selector)
    (products : list Product) : list Product :=
  match selectors with
  | [] => products
  | selector :: rest =>
      let items := take 10 (select selector page) in
      if (0 <? length items)%nat then products ++ map product_of items
      else extract_loop page rest products
  end.

Definition extractProducts (page : list node) : list Product :=
  extract_loop page productSelectors [].

(** ** designAnalyzerService.js *)

(** *** The scraped site *)

Record Layout := {
  hasHeader : bool;
  hasNav : bool;
  hasMainContent : bool;
  hasFooter : bool;
  headerHeight : Z;
  footerHeight : Z
}.

Record Meta := {
  description : option string;
  keywords : option string
}.

Record Design := {
  colors : list string;
  fonts : list string;
  layout : Layout;
  title : string;
  meta : Meta
}.

(** [products] is an array on every path of the scraper; the analyzer also
    provides for a site without one ([!products]), which is [None]. *)
Record ScrapedSite := {
  url : string;
  html : string;
  design : Design;
  products : option (list Product);
  screenshots : string * string;
  timestamp : Z
}.

(** *** Colors *)

(** One attempt of [/rgba?\((\d+),\s*(\d+),\s*(\d+)/] at the start of [s].
    Every quantifier of the expression is followed by a character outside
    its class, so the greedy choice is the only one that can succeed. *)
Definition digits1 (s : string) : option (string * string) :=
  let '(ds, rest) := span is_digit s in
  match ds with
  | EmptyString => None
  | _ => Some (ds, rest)
  end.

Definition rgb_match_here (s : string) : option (string * string * string) :=
  s ← strip_prefix "rgb" s;
  s ← strip_prefix "(" (match s with String "a" t => t | _ => s end);
  '(m1, s) ← digits1 s;
  s ← strip_prefix "," s;
  '(m2, s) ← digits1 (snd (span is_space s));
  s ← strip_prefix "," s;
  '(m3, _) ← digits1 (snd (span is_space s));
  Some (m1, m2, m3).

(** [rgb.match(...)]: the leftmost position where the expression matches. *)
Fixpoint rgb_match (s : string) : option (string * string * string) :=
  match rgb_match_here s with
  | Some m => Some m
  | None =>
      match s with
      | String _ t => rgb_match t
      | EmptyString => None
      end
  end.

(** The local [hex] of [rgbToHex]. *)
Definition hex (x : string) : string :=
  let h := toString16 (parseInt x 10) in
  if (String.length h =? 1)%nat then "0" +:+ h else h.

Definition rgbToHex (rgb : string) : string :=
  if startsWith "#" rgb then rgb
  else
    match rgb_match rgb with
    | None => "#000000"
    | Some (m1, m2, m3) => "#" +:+ hex m1 +:+ hex m2 +:+ hex m3
    end.

Record Rgb := { r : Z; g : Z; b : Z }.

(** [parseInt(pair, 16)] on a capture of [[a-f\d]{2}]. *)
Definition hex_pair (c1 c2 : ascii) : Z :=
  digits_value 16 0 (String c1 (String c2 EmptyString)).

(** [/^#?([a-f\d]{2})([a-f\d]{2})([a-f\d]{2})$/i.exec(hex)]; [null] is
    [None]. *)
Definition hexToRgb (hex : string) : option Rgb :=
  match (match hex with String "#" t => t | _ => hex end) with
  | String r1 (String r2 (String g1 (String g2 (String b1 (String b2 EmptyString))))) =>
      if forallb is_hex_digit [r1; r2; g1; g2; b1; b2]
      then Some {| r := hex_pair r1 r2; g := hex_pair g1 g2; b := hex_pair b1 b2 |}
      else None
  | _ => None
  end.

(** [brightness] is [n / 1000] for the integer [n] below; [n / 1000 > 200]
    holds exactly when [n > 200000], and [n / 1000 < 50] when [n < 50000].
    Reading [rgb.r] of [null] throws. *)
Definition categorizeColor (hex : string) : result string :=
  match hexToRgb hex with
  | None => Raise TypeError
  | Some rgb =>
      let n := r rgb * 299 + g rgb * 587 + b rgb * 114 in
      Ok (if 200000 <? n then "background"
          else if n <? 50000 then "text"
          else "accent")
  end.

Record ProcessedColor := {
  original : string;
  color_hex : string;
  usage : string
}.

Record ColorAnalysis := {
  primary : string;
  secondary : string;
  accent : string;
  colors_all : list ProcessedColor
}.

Definition process_color (color : string) : result ProcessedColor :=
  let hex := rgbToHex color in
  usage ← categorizeColor hex;
  Ok {| original := color; color_hex := hex; usage := usage |}.

Definition analyzeColors (colors : list string) : result ColorAnalysis :=
  processed ← map_result process_color colors;
  Ok {| primary := or_str (color_hex <$> processed !! 0%nat) "#000000";
        secondary := or_str (color_hex <$> processed !! 1%nat) "#666666";
        accent := or_str (color_hex <$> processed !! 2%nat) "#0066cc";
        colors_all := processed |}.

(** *** Typography *)

Definition serif_keywords : list string := ["Times"; "Georgia"; "Garamond"; "Serif"].
Definition sansSerif_keywords : list string :=
  ["Arial"; "Helvetica"; "Sans"; "Roboto"; "Open Sans"].
Definition monospace_keywords : list string :=
  ["Courier"; "Monaco"; "Consolas"; "Monospace"].

(** The [sansSerif] list of the source is declared and never read. *)
Definition categorizeFontFamily (font : string) : string :=
  if existsb (includes font) serif_keywords then "serif"
  else if existsb (includes font) monospace_keywords then "monospace"
  else "sans-serif".

Definition getFontFallback (font : string) : string :=
  let category := categorizeFontFamily font in
  if String.eqb category "serif" then "Georgia, serif"
  else if String.eqb category "monospace" then "Courier New, monospace"
  else "Arial, sans-serif".

(** [fallback] is missing from the default entry of [analyzeTypography]. *)
Record FontEntry := {
  family : string;
  category : string;
  fallback : option string
}.

Record Typography := {
  heading : FontEntry;
  body : FontEntry;
  typography_all : list FontEntry
}.

Definition is_quote (c : ascii) : bool :=
  (code c =? 39) || (code c =? 34).

(** Every single or double quote removed, then the part before the first
    comma, trimmed: [replace(..., '').split(',')[0].trim()]. *)
Definition clean_font (font : string) : string :=
  trim (fst (span (fun c => negb (code c =? 44))
               (filter_chars (fun c => negb (is_quote c)) font))).

Definition process_font (font : string) : FontEntry :=
  let cleaned := clean_font font in
  {| family := cleaned;
     category := categorizeFontFamily cleaned;
     fallback := Some (getFontFallback cleaned) |}.

Definition default_font : FontEntry :=
  {| family := "Arial"; category := "sans-serif"; fallback := None |}.

Definition analyzeTypography (fonts : list string) : Typography :=
  let processed := map process_font fonts in
  {| heading := default default_font (processed !! 0%nat);
     body := default (default default_font (processed !! 0%nat)) (processed !! 1%nat);
     typography_all := processed |}.

(** *** Layout *)

Record Structure := {
  header : bool;
  navigation : bool;
  mainContent : bool;
  footer : bool
}.

Record Dimensions := {
  dim_headerHeight : Z;
  dim_footerHeight : Z
}.

Record Breakpoints := { mobile : Z; tablet : Z; desktop : Z }.

Record LayoutAdvice := {
  mobileFirst : bool;
  responsiveGrid : string;
  breakpoints : Breakpoints
}.

Record LayoutAnalysis := {
  structure : Structure;
  dimensions : Dimensions;
  recommendations : LayoutAdvice
}.

Definition analyzeLayout (layout : Layout) : LayoutAnalysis :=
  {| structure := {| header := hasHeader layout;
                     navigation := hasNav layout;
                     mainContent := hasMainContent layout;
                     footer := hasFooter layout |};
     dimensions := {| dim_headerHeight := headerHeight layout;
                      dim_footerHeight := footerHeight layout |};
     recommendations := {| mobileFirst := true;
                           responsiveGrid := "flexbox";
                           breakpoints := {| mobile := 768; tablet := 1024;
                                             desktop := 1440 |} |} |}.

(** *** Products *)

Record FieldNames := {
  nameField : string;
  priceField : string;
  imageField : string;
  linkField : string
}.

Record ProductAnalysis := {
  count : Z;
  hasImages : bool;
  hasPrices : bool;
  fields : FieldNames;
  samples : list Product
}.

Definition analyzeProductStructure (products : option (list Product))
    : option ProductAnalysis :=
  match products with
  | None | Some [] => None
  | Some products =>
      Some {| count := Z.of_nat (length products);
              hasImages := existsb (fun p => bool_decide (is_Some (truthy (image p)))) products;
              hasPrices := existsb (fun p => bool_decide (is_Some (truthy (Some (price p))))) products;
              fields := {| nameField := "name"; priceField := "price";
                           imageField := "image"; linkField := "link" |};
              samples := take 3 products |}
  end.

(** *** Recommendations *)

(** [JSON.parse]: the values it produces, and [None] where it throws a
    SyntaxError. *)
Class JsonParser := {
  JSON : Type;
  JSON_parse : string -> option JSON
}.

(** What one call of [openai.chat.completions.create] does in a run. *)
Inductive ai_reply :=
| Rejected                              (* the call throws: network, timeout, service *)
| Malformed                             (* a response without [choices[0].message] *)
| Content (content : option string).    (* [message.content]; [null] is [None] *)

Record Recommendations := {
  improvements : list string;
  ux : list string;
  mobile_tips : list string;
  conversion : list string
}.

(** The object literal returned by the [catch] of [getAIRecommendations];
    [mobile_tips] is its key [mobile]. *)
Definition fallback_recommendations : Recommendations :=
  {| improvements := ["Modern design patterns"; "Better color contrast"; "Clear CTAs"];
     ux := ["Simplified navigation"; "Faster load times"; "Better mobile experience"];
     mobile_tips := ["Touch-friendly buttons"; "Responsive images"; "Optimized fonts"];
     conversion := ["Clear value proposition"; "Trust badges"; "Simplified checkout"] |}.

Section Analyzer.

Context `{JsonParser}.

Inductive ai_value :=
| Parsed (j : JSON)
| Fallback (rec : Recommendations).

(** The prompt is built from the url, the first five colors, the first three
    fonts and [products.length > 0]; reading [length] of a missing product
    list throws inside the [try].  The answer of the service is [reply];
    [JSON.parse(null)] parses the text [null]. *)
Definition getAIRecommendations (scrapedData : ScrapedSite) (reply : ai_reply)
    : result ai_value :=
  try_catch
    (_ ← from_option Ok (Raise TypeError) (products scrapedData);
     content ← match reply with
               | Rejected => Raise ServiceError
               | Malformed => Raise TypeError
               | Content c => Ok c
               end;
     from_option (fun j => Ok (Parsed j)) (Raise SyntaxError)
       (JSON_parse (default "null" content)))
    (fun error => Ok (Fallback fallback_recommendations)).

Record DesignAnalysis := {
  a_colors : ColorAnalysis;
  a_typography : Typography;
  a_layout : LayoutAnalysis;
  a_products : option ProductAnalysis;
  aiRecommendations : ai_value
}.

Definition analyzeDesign (scrapedData : ScrapedSite) (reply : ai_reply)
    : result DesignAnalysis :=
  try_catch
    (colors ← analyzeColors (colors (design scrapedData));
     let typography := analyzeTypography (fonts (design scrapedData)) in
     let layout := analyzeLayout (layout (design scrapedData)) in
     let products := analyzeProductStructure (products scrapedData) in
     ai ← getAIRecommendations scrapedData reply;
     Ok {| a_colors := colors;
           a_typography := typography;
           a_layout := layout;
           a_products := products;
           aiRecommendations := ai |})
    (fun error => Raise error).

End Analyzer.

(** ** storeBuilderService.js *)

(** The end of the [:root] block and the rule blocks that follow it. *)
Definition css_rules : string :=
";
      }

      * {
        margin: 0;
        padding: 0;
        box-sizing: border-box;
      }

      body {
        font-family: var(--font-body);
        color: var(--color-text);
        background-color: var(--color-background);
        line-height: 1.6;
      }

      h1, h2, h3, h4, h5, h6 {
        font-family: var(--font-heading);
        line-height: 1.2;
        margin-bottom: 1rem;
      }

      .container {
        max-width: 1200px;
        margin: 0 auto;
        padding: 0 20px;
      }

      /* Header */
      .header {
        background: var(--color-background);
        border-bottom: 1px solid #eee;
        padding: 1rem 0;
        position: sticky;
        top: 0;
        z-index: 100;
      }

      .header-content {
        display: flex;
        justify-content: space-between;
        align-items: center;
      }

      /* Navigation */
      .nav {
        display: flex;
        gap: 2rem;
      }

      .nav a {
        color: var(--color-text);
        text-decoration: none;
        transition: color 0.3s;
      }

      .nav a:hover {
        color: var(--color-primary);
      }

      /* Product Grid */
      .product-grid {
        display: grid;
        grid-template-columns: repeat(auto-fill, minmax(250px, 1fr));
        gap: 2rem;
        padding: 2rem 0;
      }

      .product-card {
        background: white;
        border-radius: 8px;
        overflow: hidden;
        transition: transform 0.3s, box-shadow 0.3s;
      }

      .product-card:hover {
        transform: translateY(-5px);
        box-shadow: 0 5px 20px rgba(0,0,0,0.1);
      }

      .product-image {
        width: 100%;
        height: 300px;
        object-fit: cover;
      }

      .product-info {
        padding: 1rem;
      }

      .product-name {
        font-size: 1.1rem;
        margin-bottom: 0.5rem;
      }

      .product-price {
        color: var(--color-primary);
        font-size: 1.2rem;
        font-weight: bold;
      }

      /* Buttons */
      .btn {
        display: inline-block;
        padding: 0.75rem 1.5rem;
        background: var(--color-primary);
        color: white;
        text-decoration: none;
        border-radius: 4px;
        transition: background 0.3s;
        border: none;
        cursor: pointer;
      }

      .btn:hover {
        background: var(--color-secondary);
      }

      /* Footer */
      .footer {
        background: #333;
        color: white;
        padding: 3rem 0 1rem;
        margin-top: 4rem;
      }

      .footer-content {
        display: grid;
        grid-template-columns: repeat(auto-fit, minmax(250px, 1fr));
        gap: 2rem;
        margin-bottom: 2rem;
      }

      /* Responsive */
      @media (max-width: 768px) {
        .header-content {
          flex-direction: column;
          gap: 1rem;
        }

        .nav {
          flex-direction: column;
          text-align: center;
        }

        .product-grid {
          grid-template-columns: repeat(auto-fill, minmax(150px, 1fr));
          gap: 1rem;
        }
      }
    ".

(** The template literal of [generateCSS], with its seven substitutions. *)
Definition stylesheet (primary secondary accent heading_family heading_fallback
    body_family body_fallback : string) : string :=
"
      :root {
        --color-primary: " +:+ primary +:+ ";
        --color-secondary: " +:+ secondary +:+ ";
        --color-accent: " +:+ accent +:+ ";
        --color-text: #333;
        --color-background: #fff;
        --font-heading: " +:+ heading_family +:+ ", " +:+ heading_fallback +:+ ";
        --font-body: " +:+ body_family +:+ ", " +:+ body_fallback +:+ css_rules.

(** *** The template catalog *)

Record HeaderSpec := { header_type : string; header_components : list string }.
Record HeroSpec := { hero_type : string; hero_height : string }.
Record FooterSpec := { footer_columns : Z; footer_components : list string }.

Record CatalogStructure := {
  cat_header : HeaderSpec;
  cat_hero : option HeroSpec;
  cat_sections : list string;
  cat_footer : FooterSpec
}.

(** A catalog entry has [id], [name], [description], [preview], [features]
    and [structure]; it has no [customizations] and its [structure] has no
    [layout]. *)
Record CatalogEntry := {
  cat_id : string;
  cat_name : string;
  cat_description : string;
  cat_preview : string;
  cat_features : list string;
  cat_structure : CatalogStructure
}.

Definition modern : CatalogEntry :=
  {| cat_id := "modern";
     cat_name := "Modern Store";
     cat_description := "Clean and modern e-commerce template";
     cat_preview := "/templates/modern/preview.jpg";
     cat_features := ["Responsive"; "SEO Optimized"; "Fast Loading"];
     cat_structure :=
       {| cat_header := {| header_type := "sticky";
                           header_components := ["logo"; "navigation"; "search"; "cart"] |};
          cat_hero := Some {| hero_type := "slider"; hero_height := "600px" |};
          cat_sections := ["featured-products"; "categories"; "testimonials"; "newsletter"];
          cat_footer := {| footer_columns := 4;
                           footer_components := ["about"; "links"; "contact"; "social"] |} |} |}.

Definition minimal : CatalogEntry :=
  {| cat_id := "minimal";
     cat_name := "Minimal Store";
     cat_description := "Simple and elegant design";
     cat_preview := "/templates/minimal/preview.jpg";
     cat_features := ["Minimalist"; "Typography Focus"; "White Space"];
     cat_structure :=
       {| cat_header := {| header_type := "simple";
                           header_components := ["logo"; "navigation"; "cart"] |};
          cat_hero := None;
          cat_sections := ["products-grid"; "about"; "contact"];
          cat_footer := {| footer_columns := 2;
                           footer_components := ["copyright"; "social"] |} |} |}.

(** [loadTemplates] has no [await]: the constructor's call has set both
    entries before any other method runs. *)
Definition loadTemplates (templates : gmap string CatalogEntry) : gmap string CatalogEntry :=
  <["minimal" := minimal]> (<["modern" := modern]> templates).

Definition templates : gmap string CatalogEntry := loadTemplates ∅.

(** *** Template generation *)

Inductive Component :=
| CProductGrid (columns : Z) (showPrice showImage : bool)
| CNavigation (style position : string)
| CSearch (position style : string)
| CCart (position style : string).

(** The [type] field of a component. *)
Definition component_type (c : Component) : string :=
  match c with
  | CProductGrid _ _ _ => "product-grid"
  | CNavigation _ _ => "navigation"
  | CSearch _ _ => "search"
  | CCart _ _ => "cart"
  end.

Record FontChoice := { font_heading : string; font_body : string }.

(** The object that [generateTemplate] and [createStore] read: an analysis,
    or the [customizations] of a request.  A field is absent or has the shape
    the analyzer gives it; an object with a field that is present and
    incomplete (a layout without [structure], a typography without [heading])
    is not represented, and nothing below speaks of one. *)
Record AnalysisObject := {
  o_colors : option ColorAnalysis;
  o_typography : option Typography;
  o_layout : option LayoutAnalysis;
  o_products : option ProductAnalysis;
  o_fonts : option FontChoice;
  o_theme : option string
}.

(** Reading a property of [v], which throws when [v] is undefined. *)
Definition defined {A} (v : option A) : result A :=
  from_option Ok (Raise TypeError) v.

Definition selectBaseTemplate (analysis : AnalysisObject) : result string :=
  layout ← defined (o_layout analysis);
  Ok (if header (structure layout) && footer (structure layout)
      then "modern" else "minimal").

Definition selectComponents (analysis : AnalysisObject) : result (list Component) :=
  let components := [] in
  let components :=
    match o_products analysis with
    | Some products =>
        if 0 <? count products
        then components ++ [CProductGrid 4 (hasPrices products) (hasImages products)]
        else components
    | None => components
    end in
  layout ← defined (o_layout analysis);
  let components :=
    if navigation (structure layout)
    then components ++ [CNavigation "horizontal" "header"]
    else components in
  let components := components ++ [CSearch "header" "inline"] in
  let components := components ++ [CCart "header" "icon"] in
  Ok components.

Definition generateCSS (analysis : AnalysisObject) : result string :=
  colors ← defined (o_colors analysis);
  typography ← defined (o_typography analysis);
  Ok (stylesheet (primary colors) (secondary colors) (accent colors)
        (family (heading typography)) (interpolate (fallback (heading typography)))
        (family (body typography)) (interpolate (fallback (body typography)))).

Record TemplateCustomizations := {
  tc_colors : option ColorAnalysis;
  tc_typography : option Typography;
  tc_layout : option LayoutAnalysis;
  tc_components : list Component
}.

Record GeneratedTemplate := {
  id : string;
  template_name : string;
  baseTemplate : string;
  customizations : TemplateCustomizations;
  css : string;
  html_text : string
}.

Section Builder.

(** The markup literal of [generateHTML]: a constant with placeholder
    tokens and no substitution. *)
Variable html_skeleton : string.

Definition generateHTML (analysis : AnalysisObject) : result string :=
  Ok html_skeleton.

(** [now] is the value of [Date.now()]. *)
Definition generateTemplate (now : Z) (analysis : AnalysisObject)
    : result GeneratedTemplate :=
  base ← selectBaseTemplate analysis;
  components ← selectComponents analysis;
  css ← generateCSS analysis;
  html ← generateHTML analysis;
  Ok {| id := "custom-" +:+ toString10 now;
        template_name := "Custom Generated Template";
        baseTemplate := base;
        customizations := {| tc_colors := o_colors analysis;
                             tc_typography := o_typography analysis;
                             tc_layout := o_layout analysis;
                             tc_components := components |};
        css := css;
        html_text := html |}.

(** *** Store creation *)

(** What [createStore] calls [template]: a catalog entry or a generated
    template, two objects of different shapes. *)
Inductive Template :=
| FromCatalog (t : CatalogEntry)
| Generated (t : GeneratedTemplate).

(** [template.customizations] *)
Definition template_customizations (t : Template) : option TemplateCustomizations :=
  match t with
  | FromCatalog _ => None
  | Generated t => Some (customizations t)
  end.

(** [template.structure?.layout]: a generated template has no [structure],
    and the [structure] of a catalog entry has no [layout]. *)
Definition template_structure_layout (t : Template) : option string :=
  match t with
  | FromCatalog _ => None
  | Generated _ => None
  end.

Record StoreInfo := {
  si_name : option string;
  si_subdomain : option string;
  si_sourceUrl : option string;
  si_logo : option string;
  si_favicon : option string;
  si_language : option string;
  si_currency : option string;
  si_timezone : option string;
  si_seoTitle : option string;
  si_seoDescription : option string;
  si_keywords : option (list string)
}.

Record Request := {
  req_userId : string;
  req_templateId : option string;
  req_customizations : AnalysisObject;
  req_storeInfo : StoreInfo
}.

(** [customizations.fonts || template.customizations.typography] *)
Inductive FontsValue :=
| ChosenFonts (f : FontChoice)
| TemplateFonts (t : option Typography).

Record StoreTemplate := {
  sourceUrl : option string;
  analyzedData : AnalysisObject;
  store_colors : option ColorAnalysis;
  store_fonts : FontsValue;
  logo : option string;
  favicon : option string
}.

Record StoreDesign := {
  design_layout : string;
  theme : string;
  components : list Component
}.

Record StoreSettings := {
  language : string;
  currency : string;
  timezone : string
}.

Record StoreSeo := {
  seo_title : option string;
  seo_description : string;
  seo_keywords : list string
}.

(** The object given to [new Store]. *)
Record StoreRecord := {
  userId : string;
  store_name : option string;
  subdomain : string;
  template : StoreTemplate;
  store_design : StoreDesign;
  settings : StoreSettings;
  seo : StoreSeo;
  status : string
}.

(** [new Store(record)] followed by [store.save()], the persistence
    collaborator: the schema of the Store model casts and validates the
    record, and [save] rejects with the error of either.  [createStore]
    returns the document; the model returns the record the document was
    built from, so only what it raises is stated below. *)
Variable save : StoreRecord -> result unit.

(** [name.toLowerCase().replace(/[^a-z0-9]/g, '')] *)
Definition default_subdomain (name : string) : string :=
  filter_chars (fun c => between 97 122 c || is_digit c) (toLowerCase name).

Definition createStore (now : Z) (request : Request) : result StoreRecord :=
  let customizations := req_customizations request in
  let storeInfo := req_storeInfo request in
  try_catch
    (template ← match req_templateId request ≫= (templates !!.) with
                | Some t => Ok (FromCatalog t)
                | None => t ← generateTemplate now customizations; Ok (Generated t)
                end;
     subdomain ← match truthy (si_subdomain storeInfo) with
                 | Some s => Ok s
                 | None => name ← defined (si_name storeInfo); Ok (default_subdomain name)
                 end;
     colors ← match o_colors customizations with
              | Some c => Ok (Some c)
              | None => tc ← defined (template_customizations template); Ok (tc_colors tc)
              end;
     fonts ← match o_fonts customizations with
             | Some f => Ok (ChosenFonts f)
             | None => tc ← defined (template_customizations template);
                       Ok (TemplateFonts (tc_typography tc))
             end;
     components ← (tc ← defined (template_customizations template); Ok (tc_components tc));
     let store :=
       {| userId := req_userId request;
          store_name := si_name storeInfo;
          subdomain := subdomain;
          template := {| sourceUrl := si_sourceUrl storeInfo;
                         analyzedData := customizations;
                         store_colors := colors;
                         store_fonts := fonts;
                         logo := si_logo storeInfo;
                         favicon := si_favicon storeInfo |};
          store_design := {| design_layout := or_str (template_structure_layout template)
                                                "single-column";
                             theme := or_str (o_theme customizations) "light";
                             components := components |};
          settings := {| language := or_str (si_language storeInfo) "en";
                         currency := or_str (si_currency storeInfo) "USD";
                         timezone := or_str (si_timezone storeInfo) "UTC" |};
          seo := {| seo_title := match truthy (si_seoTitle storeInfo) with
                                 | Some t => Some t
                                 | None => si_name storeInfo
                                 end;
                    seo_description := or_str (si_seoDescription storeInfo)
                                         ("Welcome to " +:+ interpolate (si_name storeInfo));
                    seo_keywords := default [] (si_keywords storeInfo) |};
          status := "draft" |} in
     _ ← save store;
     Ok store)
    (fun error => Raise error).

End Builder.

(** An analysis as the object the builder reads. *)
Definition as_object `{JsonParser} (analysis : DesignAnalysis) : AnalysisObject :=
  {| o_colors := Some (a_colors analysis);
     o_typography := Some (a_typography analysis);
     o_layout := Some (a_layout analysis);
     o_products := a_products analysis;
     o_fonts := None;
     o_theme := None |}.

(** ** aiScraperService.js: the design signals read in the page *)

(** The computed style of one element, as [extractColors] and
    [extractFonts] read it. *)
Record ComputedStyle := {
  computed_color : string;
  computed_backgroundColor : string;
  computed_fontFamily : string
}.

(** [set.add(x)], for a Set kept as the list of its members in insertion
    order, which is the order of [Array.from]. *)
Definition set_add (x : string) (set : list string) : list string :=
  if bool_decide (x ∈ set) then set else set ++ [x].

(** [elements] are the styles of [document.querySelectorAll('*')], in
    document order. *)
Definition extractColors (elements : list ComputedStyle) : list string :=
  let colors :=
    fold_left (fun colors style =>
                 set_add (computed_backgroundColor style)
                   (set_add (computed_color style) colors))
              elements [] in
  List.filter (fun c => negb (String.eqb c EmptyString) &&
                        negb (String.eqb c "rgba(0, 0, 0, 0)")) colors.

Definition extractFonts (elements : list ComputedStyle) : list string :=
  fold_left (fun fonts style => set_add (computed_fontFamily style) fonts) elements [].

(** ** aiController.js: the analysis request *)

Record ScrapedSummary := {
  summary_title : string;
  summary_colors : list string;
  summary_fonts : list string;
  productsFound : Z
}.

Section Controller.

Context `{JsonParser}.

(** The markup literal of [generateHTML], the scraper, and
    [buffer.toString('base64')]. *)
Variable html_skeleton : string.
Variable scrapeWebsite : string -> result ScrapedSite.
Variable base64 : string -> string.

Record AnalyzeData := {
  data_sourceUrl : string;
  data_scrapedData : ScrapedSummary;
  data_analysis : DesignAnalysis;
  data_template : GeneratedTemplate;
  data_preview : string * string
}.

(** The three answers of [analyzeWebsite]: status 400 with an error, the
    [success] body, and status 500 with an error and the message of the
    exception caught. *)
Inductive AnalyzeResponse :=
| BadRequest (error : string)
| Success (data : AnalyzeData)
| Failure (error : string) (cause : JS.error).

(** [url] is [req.body.url]. *)
Definition analyzeWebsite (url : option string) (reply : ai_reply) (now : Z)
    : AnalyzeResponse :=
  match truthy url with
  | None => BadRequest "URL is required"
  | Some url =>
      match
        (scrapedData ← scrapeWebsite url;
         analysis ← analyzeDesign scrapedData reply;
         template ← generateTemplate html_skeleton now (as_object analysis);
         found ← defined (products scrapedData);
         Ok {| data_sourceUrl := url;
               data_scrapedData :=
                 {| summary_title := title (design scrapedData);
                    summary_colors := take 5 (colors (design scrapedData));
                    summary_fonts := take 3 (fonts (design scrapedData));
                    productsFound := Z.of_nat (length found) |};
               data_analysis := analysis;
               data_template := template;
               data_preview := (base64 (fst (screenshots scrapedData)),
                                base64 (snd (screenshots scrapedData))) |})
      with
      | Ok data => Success data
      | Raise e => Failure "Failed to analyze website" e
      end
  end.

End Controller.

(** * Notions used in the statements *)

(** [sub] occurs in [s]. *)
Definition contains (s sub : string) : Prop :=
  exists pre post, s = pre +:+ sub +:+ post.

(** The text of [rgb(r, g, b)] for three channel values. *)
Definition rgb_text (red green blue : Z) : string :=
  "rgb(" +:+ toString10 red +:+ ", " +:+ toString10 green +:+ ", " +:+ toString10 blue +:+ ")".

(** What one channel value goes through: printed in decimal, captured by
    [\d+], printed as two hex digits, read back. *)
Definition channel_check (n : Z) : bool :=
  let d := toString10 n in
  match d, hex d with
  | String c _, String h1 (String h2 EmptyString) =>
      is_digit c && all_chars is_digit d &&
      is_lower_hex_digit h1 && is_lower_hex_digit h2 && (hex_pair h1 h2 =? n)
  | _, _ => false
  end.

(** [font] contains one of the keywords. *)
Definition contains_any (font : string) (keys : list string) : Prop :=
  exists k, In k keys /\ contains font k.

(** [sel] selects nothing on [page]. *)
Definition no_match (page : list node) (sel : selector) : Prop :=
  select sel page = [].

(** [#] followed by six hex digits: the strings [hexToRgb] reads, among
    those [rgbToHex] returns. *)
Definition is_hex_color (s : string) : bool :=
  match strip_prefix "#" s with
  | Some digits => (String.length digits =? 6)%nat && all_chars is_hex_digit digits
  | None => false
  end.

(** Two analyses that agree on every field other than [aiRecommendations]. *)
Definition same_but_recommendations `{JsonParser} (a1 a2 : DesignAnalysis) : Prop :=
  a_colors a1 = a_colors a2 /\
  a_typography a1 = a_typography a2 /\
  a_layout a1 = a_layout a2 /\
  a_products a1 = a_products a2.

(** ** Inputs of the examples *)

(** A page with one [.product] element followed by one element carrying
    Product microdata. *)
Definition two_kinds_page : list node :=
  [ Element "div" [("class", "card product")]
      [ Element "h2" [] [Text " Lamp "];
        Element "span" [("class", "price")] [Text "12.00"];
        Element "a" [("href", "/lamp")] [Element "img" [("src", "/lamp.png")] []] ];
    Element "div" [("itemtype", "https://schema.org/Product")]
      [ Element "h3" [("itemprop", "name")] [Text "Chair"] ] ].

(** A parser for the three JSON keywords, enough to run the examples. *)
Definition keyword_json : JsonParser :=
  {| JSON := option bool;
     JSON_parse := fun text =>
       if String.eqb text "null" then Some None
       else if String.eqb text "true" then Some (Some true)
       else if String.eqb text "false" then Some (Some false)
       else None |}.

(** A site with the given colors and fonts, a header, a footer and no
    navigation, and no product. *)
Definition sample_site (colors fonts : list string) : ScrapedSite :=
  {| url := "https://shop.example";
     html := "<html></html>";
     design := {| colors := colors;
                  fonts := fonts;
                  layout := {| hasHeader := true; hasNav := false;
                               hasMainContent := true; hasFooter := true;
                               headerHeight := 80; footerHeight := 120 |};
                  title := "Shop";
                  meta := {| description := None; keywords := None |} |};
     products := Some [];
     screenshots := (EmptyString, EmptyString);
     timestamp := 0 |}.

(** A site with the given layout flags and products, and no color or font. *)
Definition site_with (header navigation footer : bool) (products : list Product)
    : ScrapedSite :=
  {| url := "https://shop.example";
     html := "<html></html>";
     design := {| colors := [];
                  fonts := [];
                  layout := {| hasHeader := header; hasNav := navigation;
                               hasMainContent := true; hasFooter := footer;
                               headerHeight := 80; footerHeight := 120 |};
                  title := "Shop";
                  meta := {| description := None; keywords := None |} |};
     products := Some products;
     screenshots := (EmptyString, EmptyString);
     timestamp := 0 |}.

(** What [analyzeDesign] returns on [site_with] when the completion call is
    rejected. *)
Definition analysis_with (header navigation footer : bool) (products : list Product)
    : @DesignAnalysis keyword_json :=
  {| a_colors := {| primary := "#000000"; secondary := "#666666"; accent := "#0066cc";
                    colors_all := [] |};
     a_typography := analyzeTypography [];
     a_layout := analyzeLayout (layout (design (site_with header navigation footer products)));
     a_products := analyzeProductStructure (Some products);
     aiRecommendations := Fallback fallback_recommendations |}.

Definition lamp : Product :=
  {| name := "Lamp"; price := "12.00"; image := None; link := Some "/lamp" |}.

(** A store request that names the catalog template [modern]. *)
Definition modern_request : Request :=
  {| req_userId := "user-1";
     req_templateId := Some "modern";
     req_customizations := {| o_colors := None; o_typography := None; o_layout := None;
                              o_products := None; o_fonts := None;
                              o_theme := Some "dark" |};
     req_storeInfo := {| si_name := Some "My Shop"; si_subdomain := None;
                         si_sourceUrl := None; si_logo := None; si_favicon := None;
                         si_language := None; si_currency := None; si_timezone := None;
                         si_seoTitle := None; si_seoDescription := None;
                         si_keywords := None |} |}.

(** A store request without a template id, whose customizations are an
    analysis together with a theme. *)
Definition ad_hoc_request : Request :=
  {| req_userId := "user-1";
     req_templateId := None;
     req_customizations :=
       {| o_colors := Some {| primary := "#112233"; secondary := "#445566";
                              accent := "#778899"; colors_all := [] |};
          o_typography := Some (analyzeTypography ["Georgia, serif"]);
          o_layout := Some (analyzeLayout {| hasHeader := true; hasNav := true;
                                             hasMainContent := true; hasFooter := false;
                                             headerHeight := 80; footerHeight := 0 |});
          o_products := None;
          o_fonts := None;
          o_theme := Some "dark" |};
     req_storeInfo := {| si_name := Some "My Shop"; si_subdomain := None;
                         si_sourceUrl := None; si_logo := None; si_favicon := None;
                         si_language := None; si_currency := None; si_timezone := None;
                         si_seoTitle := None; si_seoDescription := None;
                         si_keywords := None |} |}.

(** The characters of [[a-f\d]] under the [i] flag. *)
Definition hex_chars : list ascii :=
  ["0"; "1"; "2"; "3"; "4"; "5"; "6"; "7"; "8"; "9";
   "a"; "b"; "c"; "d"; "e"; "f"; "A"; "B"; "C"; "D"; "E"; "F"]%char.

(** Two hex digits are read as a channel value, the value is printed in
    decimal and normalised again: the result is the two digits in lower
    case. *)
Definition pair_check (c1 c2 : ascii) : bool :=
  String.eqb (hex (toString10 (hex_pair c1 c2)))
             (toLowerCase (String c1 (String c2 EmptyString))).

(** Neither the first nor the last character of [s] is white space. *)
Definition no_outer_space (s : string) : Prop :=
  match s with String c _ => is_space c = false | EmptyString => True end /\
  match String.rev s with String c _ => is_space c = false | EmptyString => True end.

(** What [analyzeColors] returns on white followed by black. *)
Definition two_colors_analysis : ColorAnalysis :=
  {| primary := "#ffffff";
     secondary := "#000000";
     accent := "#0066cc";
     colors_all := [ {| original := "rgb(255, 255, 255)"; color_hex := "#ffffff";
                        usage := "background" |};
                     {| original := "rgb(0, 0, 0)"; color_hex := "#000000";
                        usage := "text" |} ] |}.

(** A site object without a product list. *)
Definition site_without_products : ScrapedSite :=
  {| url := "https://shop.example";
     html := "<html></html>";
     design := design (sample_site ["rgb(0, 0, 0)"] ["Arial"]);
     products := None;
     screenshots := (EmptyString, EmptyString);
     timestamp := 0 |}.

(** * Properties *)

(** ** Strings *)

#[local] Arguments String.append !_ _ / : simpl nomatch.

Lemma strip_prefix_spec (p s rest : string) :
  strip_prefix p s = Some rest <-> s = p +:+ rest.
Proof.
  revert s. induction p as [|a p IH]; intros s; simpl.
  - split; congruence.
  - destruct s as [|c s]; [split; discriminate|].
    destruct (Ascii.eqb_spec a c) as [->|Hne].
    + rewrite IH. split; congruence.
    + split; [discriminate|]. intros [= -> _]. contradiction.
Qed.

Lemma startsWith_spec (p s : string) :
  startsWith p s = true <-> exists rest, s = p +:+ rest.
Proof.
  unfold startsWith. rewrite bool_decide_eq_true. unfold is_Some.
  split; intros [rest Hr]; exists rest; apply strip_prefix_spec, Hr.
Qed.

Lemma append_assoc (s t u : string) : (s +:+ t) +:+ u = s +:+ t +:+ u.
Proof. induction s as [|c s IH]; simpl; congruence. Qed.

Lemma includes_spec (s sub : string) :
  includes s sub = true <-> contains s sub.
Proof.
  unfold contains. induction s as [|c s IH]; simpl.
  - rewrite orb_false_r, startsWith_spec. split.
    + intros [rest Hr]. exists EmptyString, rest. exact Hr.
    + intros ([|? ?] & post & Hp); [|discriminate]. eauto.
  - rewrite orb_true_iff, startsWith_spec, IH. split.
    + intros [[rest Hr]|(pre & post & Hp)].
      * exists EmptyString, rest. exact Hr.
      * exists (String c pre), post. simpl. congruence.
    + intros ([|c' pre] & post & Hp); simpl in Hp.
      * left. eauto.
      * right. injection Hp as _ Hp. eauto.
Qed.

Lemma includes_append_r (s t sub : string) :
  includes t sub = true -> includes (s +:+ t) sub = true.
Proof.
  rewrite !includes_spec. intros (pre & post & ->).
  exists (s +:+ pre), post. symmetry. apply append_assoc.
Qed.

Lemma span_all (p : ascii -> bool) (d rest : string) :
  all_chars p d = true ->
  match rest with String c _ => p c = false | EmptyString => True end ->
  span p (d +:+ rest) = (d, rest).
Proof.
  intros Hd Hrest. induction d as [|c d IH]; simpl in *.
  - destruct rest as [|c t]; [reflexivity|]. simpl. now rewrite Hrest.
  - apply andb_true_iff in Hd as [Hc Hd]. now rewrite Hc, IH.
Qed.

Lemma digit_not_space (c : ascii) : is_digit c = true -> is_space c = false.
Proof.
  unfold is_digit, is_space, between. intros Hc.
  apply andb_true_iff in Hc as [?%Z.leb_le ?%Z.leb_le].
  rewrite !orb_false_iff, andb_false_iff, Z.leb_gt, !Z.eqb_neq. lia.
Qed.

Lemma lower_hex_is_hex (c : ascii) : is_lower_hex_digit c = true -> is_hex_digit c = true.
Proof. unfold is_lower_hex_digit, is_hex_digit. intros ->. reflexivity. Qed.

(** ** Colors *)

Lemma channels_checked :
  forallb channel_check (map Z.of_nat (seq 0 256)) = true.
Proof. vm_compute. reflexivity. Qed.

Lemma channel_ok (n : Z) :
  0 <= n <= 255 ->
  exists c d h1 h2,
    toString10 n = String c d /\ is_digit c = true /\
    all_chars is_digit (toString10 n) = true /\
    hex (toString10 n) = String h1 (String h2 EmptyString) /\
    is_lower_hex_digit h1 = true /\ is_lower_hex_digit h2 = true /\
    hex_pair h1 h2 = n.
Proof.
  intros Hn. pose proof channels_checked as Hall.
  rewrite forallb_forall in Hall.
  assert (Hin : In n (map Z.of_nat (seq 0 256))).
  { apply in_map_iff. exists (Z.to_nat n). split; [lia|]. apply in_seq. lia. }
  apply Hall in Hin. unfold channel_check in Hin.
  destruct (toString10 n) as [|c d] eqn:Hd; [discriminate|].
  destruct (hex (String c d)) as [|h1 [|h2 [|? ?]]]; try discriminate.
  apply andb_true_iff in Hin as [Hin Hv%Z.eqb_eq].
  apply andb_true_iff in Hin as [Hin Hh2].
  apply andb_true_iff in Hin as [Hin Hh1].
  apply andb_true_iff in Hin as [Hc Hall_d].
  exists c, d, h1, h2. tauto.
Qed.

(** A run of digits at the head of a text is what [\d+] captures. *)
Lemma digits1_head (c : ascii) (d rest : string) :
  is_digit c = true -> all_chars is_digit (String c d) = true ->
  match rest with String x _ => is_digit x = false | EmptyString => True end ->
  digits1 (String c d +:+ rest) = Some (String c d, rest).
Proof.
  intros Hc Hd Hrest. unfold digits1.
  now rewrite (span_all is_digit (String c d) rest Hd Hrest).
Qed.

Lemma skip_space_before_digit (c : ascii) (t : string) :
  is_digit c = true -> snd (span is_space (String " " (String c t))) = String c t.
Proof.
  intros Hc. simpl. change (is_space " ") with true. cbv iota.
  now rewrite (digit_not_space c Hc).
Qed.

Lemma rgb_match_text (red green blue : Z) :
  0 <= red <= 255 -> 0 <= green <= 255 -> 0 <= blue <= 255 ->
  rgb_match (rgb_text red green blue)
  = Some (toString10 red, toString10 green, toString10 blue).
Proof.
  intros Hr Hg Hb.
  destruct (channel_ok red Hr) as (c1 & d1 & _ & _ & E1 & Hc1 & Hd1 & _).
  destruct (channel_ok green Hg) as (c2 & d2 & _ & _ & E2 & Hc2 & Hd2 & _).
  destruct (channel_ok blue Hb) as (c3 & d3 & _ & _ & E3 & Hc3 & Hd3 & _).
  unfold rgb_text. rewrite E1, E2, E3 in *.
  assert (Hhere : rgb_match_here
            ("rgb(" +:+ String c1 d1 +:+ ", " +:+ String c2 d2 +:+ ", " +:+ String c3 d3 +:+ ")")
          = Some (String c1 d1, String c2 d2, String c3 d3)).
  { unfold rgb_match_here.
    change ("rgb(" +:+ ?s) with (String "r" (String "g" (String "b" (String "(" s)))).
    cbn [strip_prefix Ascii.eqb Bool.eqb mbind option_bind].
    rewrite (digits1_head c1 d1 _ Hc1 Hd1) by reflexivity.
    cbn [mbind option_bind]. change (", " +:+ ?s) with (String "," (String " " s)).
    cbn [strip_prefix Ascii.eqb Bool.eqb mbind option_bind].
    change (String c2 d2 +:+ ?s) with (String c2 (d2 +:+ s)).
    rewrite (skip_space_before_digit c2 _ Hc2).
    change (String c2 (d2 +:+ ?s)) with (String c2 d2 +:+ s).
    rewrite (digits1_head c2 d2 _ Hc2 Hd2) by reflexivity.
    cbn [mbind option_bind]. change (", " +:+ ?s) with (String "," (String " " s)).
    cbn [strip_prefix Ascii.eqb Bool.eqb mbind option_bind].
    change (String c3 d3 +:+ ?s) with (String c3 (d3 +:+ s)).
    rewrite (skip_space_before_digit c3 _ Hc3).
    change (String c3 (d3 +:+ ?s)) with (String c3 d3 +:+ s).
    rewrite (digits1_head c3 d3 _ Hc3 Hd3) by reflexivity.
    reflexivity. }
  change ("rgb(" +:+ ?s) with (String "r" (String "g" (String "b" (String "(" s)))) in *.
  unfold rgb_match; fold rgb_match. now rewrite Hhere.
Qed.

(** ** Product extraction *)

Lemma extract_loop_first_match (page : list node) (selectors : list selector) :
  (Forall (no_match page) selectors /\ extract_loop page selectors [] = []) \/
  (exists pre sel post,
     selectors = pre ++ sel :: post /\
     Forall (no_match page) pre /\
     select sel page <> [] /\
     extract_loop page selectors [] = map product_of (take 10 (select sel page))).
Proof.
  induction selectors as [|sel rest IH].
  - left. split; [constructor|reflexivity].
  - cbn [extract_loop]. destruct (select sel page) as [|el els] eqn:Hsel.
    + cbn. destruct IH as [[Hnone Hempty]|(pre & sel' & post & -> & Hpre & Hsome & Hres)].
      * left. split; [constructor; assumption|exact Hempty].
      * right. exists (sel :: pre), sel', post.
        split; [reflexivity|]. split; [constructor; assumption|]. split; assumption.
    + right. exists [], sel, rest. rewrite Hsel.
      split; [reflexivity|]. split; [constructor|]. split; [discriminate|reflexivity].
Qed.

(** C2, as the code has it. The selectors are tried in the order [.product],
    [.product-item], [.product-card], the itemtype/Product microdata,
    [[data-product]]; the products are those of the first ten elements of the
    first selector of that order that selects an element, and of no other
    selector; no selector selecting anything gives the empty list. *)
Theorem extractProducts_first_matching_selector (page : list node) :
  productSelectors
  = [ [ByClass "product"]; [ByClass "product-item"]; [ByClass "product-card"];
      [AttrContains "itemtype" "Product"]; [HasAttr "data-product"] ] /\
  (length (extractProducts page) <= 10)%nat /\
  ((Forall (no_match page) productSelectors /\ extractProducts page = []) \/
   (exists pre sel post,
      productSelectors = pre ++ sel :: post /\
      Forall (no_match page) pre /\
      select sel page <> [] /\
      extractProducts page = map product_of (take 10 (select sel page)))).
Proof.
  split; [reflexivity|].
  pose proof (extract_loop_first_match page productSelectors) as Hfirst.
  fold (extractProducts page) in Hfirst. split; [|exact Hfirst].
  destruct Hfirst as [[_ ->]|(_ & sel & _ & _ & _ & _ & ->)].
  - simpl. lia.
  - rewrite length_map, length_take. lia.
Qed.

(** C2, as stated, fails: on [two_kinds_page] the microdata selector, first
    in the stated order, selects an element, and the products are those of
    [.product]. *)
Lemma microdata_is_not_tried_first :
  select [AttrContains "itemtype" "Product"] two_kinds_page <> [] /\
  extractProducts two_kinds_page
  <> map product_of (take 10 (select [AttrContains "itemtype" "Product"] two_kinds_page)) /\
  extractProducts two_kinds_page
  = map product_of (take 10 (select [ByClass "product"] two_kinds_page)).
Proof.
  split; [|split]; vm_compute; congruence.
Qed.

Lemma rgbToHex_text (red green blue : Z) :
  0 <= red <= 255 -> 0 <= green <= 255 -> 0 <= blue <= 255 ->
  rgbToHex (rgb_text red green blue)
  = "#" +:+ hex (toString10 red) +:+ hex (toString10 green) +:+ hex (toString10 blue).
Proof.
  intros Hr Hg Hb. unfold rgbToHex.
  rewrite (rgb_match_text red green blue Hr Hg Hb). reflexivity.
Qed.

(** The colors a browser computes pass the condition of [is_hex_color]. *)
Lemma rgb_text_is_hex_color (red green blue : Z) :
  0 <= red <= 255 -> 0 <= green <= 255 -> 0 <= blue <= 255 ->
  is_hex_color (rgbToHex (rgb_text red green blue)) = true.
Proof.
  intros Hr Hg Hb. rewrite (rgbToHex_text red green blue Hr Hg Hb).
  destruct (channel_ok red Hr) as (_ & _ & r1 & r2 & _ & _ & _ & -> & Hr1 & Hr2 & _).
  destruct (channel_ok green Hg) as (_ & _ & g1 & g2 & _ & _ & _ & -> & Hg1 & Hg2 & _).
  destruct (channel_ok blue Hb) as (_ & _ & b1 & b2 & _ & _ & _ & -> & Hb1 & Hb2 & _).
  unfold is_hex_color. cbn.
  now rewrite !lower_hex_is_hex by assumption.
Qed.

(** C6. For channel values in 0..255, [rgbToHex] of the text [rgb(r, g, b)] is
    [#] followed by six lowercase hex digits, and [hexToRgb] reads the three
    values back from it; a string that starts with [#] is returned
    unchanged. *)
Theorem rgbToHex_round_trip :
  (forall red green blue : Z,
     0 <= red <= 255 -> 0 <= green <= 255 -> 0 <= blue <= 255 ->
     exists digits : string,
       rgbToHex (rgb_text red green blue) = String "#" digits /\
       String.length digits = 6%nat /\
       all_chars is_lower_hex_digit digits = true /\
       hexToRgb (rgbToHex (rgb_text red green blue))
       = Some {| r := red; g := green; b := blue |}) /\
  (forall s : string, startsWith "#" s = true -> rgbToHex s = s).
Proof.
  split.
  - intros red green blue Hr Hg Hb.
    rewrite (rgbToHex_text red green blue Hr Hg Hb).
    destruct (channel_ok red Hr) as (_ & _ & r1 & r2 & _ & _ & _ & -> & Hr1 & Hr2 & Vr).
    destruct (channel_ok green Hg) as (_ & _ & g1 & g2 & _ & _ & _ & -> & Hg1 & Hg2 & Vg).
    destruct (channel_ok blue Hb) as (_ & _ & b1 & b2 & _ & _ & _ & -> & Hb1 & Hb2 & Vb).
    exists (String r1 (String r2 (String g1 (String g2 (String b1 (String b2 EmptyString)))))).
    split; [reflexivity|]. split; [reflexivity|]. split.
    + simpl. now rewrite Hr1, Hr2, Hg1, Hg2, Hb1, Hb2.
    + unfold hexToRgb. cbn [String.append forallb].
      rewrite !lower_hex_is_hex by assumption. simpl.
      now rewrite Vr, Vg, Vb.
  - intros s Hs. unfold rgbToHex. now rewrite Hs.
Qed.

Lemma rgbToHex_round_trip_witness :
  exists digits : string,
    rgbToHex (rgb_text 255 0 10) = String "#" digits /\
    String.length digits = 6%nat /\
    all_chars is_lower_hex_digit digits = true /\
    hexToRgb (rgbToHex (rgb_text 255 0 10)) = Some {| r := 255; g := 0; b := 10 |}.
Proof.
  apply (proj1 rgbToHex_round_trip 255 0 10); lia.
Defined.

(** ** Typography *)

Lemma some_includes (font : string) (keys : list string) :
  existsb (includes font) keys = true <-> contains_any font keys.
Proof.
  unfold contains_any. rewrite existsb_exists.
  split; intros (k & Hk & Hc); exists k; (split; [exact Hk|]); now apply includes_spec.
Qed.

Lemma none_includes (font : string) (keys : list string) :
  existsb (includes font) keys = false <-> ~ contains_any font keys.
Proof. rewrite <- some_includes. now destruct (existsb _ _). Qed.

(** C7, as the code has it. A name that contains a serif keyword is [serif]
    with fallback [Georgia, serif]; a name that contains a monospace keyword
    and no serif keyword is [monospace] with fallback
    [Courier New, monospace]; a name with neither is [sans-serif] with
    fallback [Arial, sans-serif]. [Times New Roman] is serif and [Consolas]
    is monospace. *)
Theorem font_classification (font : string) :
  (contains_any font ["Times"; "Georgia"; "Garamond"; "Serif"] ->
     categorizeFontFamily font = "serif" /\
     getFontFallback font = "Georgia, serif") /\
  (~ contains_any font ["Times"; "Georgia"; "Garamond"; "Serif"] ->
   contains_any font ["Courier"; "Monaco"; "Consolas"; "Monospace"] ->
     categorizeFontFamily font = "monospace" /\
     getFontFallback font = "Courier New, monospace") /\
  (~ contains_any font ["Times"; "Georgia"; "Garamond"; "Serif"] ->
   ~ contains_any font ["Courier"; "Monaco"; "Consolas"; "Monospace"] ->
     categorizeFontFamily font = "sans-serif" /\
     getFontFallback font = "Arial, sans-serif") /\
  (categorizeFontFamily "Times New Roman" = "serif" /\
   getFontFallback "Times New Roman" = "Georgia, serif" /\
   categorizeFontFamily "Consolas" = "monospace" /\
   getFontFallback "Consolas" = "Courier New, monospace").
Proof.
  unfold getFontFallback, categorizeFontFamily.
  change serif_keywords with ["Times"; "Georgia"; "Garamond"; "Serif"].
  change monospace_keywords with ["Courier"; "Monaco"; "Consolas"; "Monospace"].
  split; [|split; [|split]].
  - intros Hserif%some_includes. now rewrite Hserif.
  - intros Hserif%none_includes Hmono%some_includes. now rewrite Hserif, Hmono.
  - intros Hserif%none_includes Hmono%none_includes. now rewrite Hserif, Hmono.
  - repeat split.
Qed.

Lemma font_classification_witness :
  categorizeFontFamily "Droid Serif" = "serif" /\
  getFontFallback "Droid Serif" = "Georgia, serif".
Proof.
  apply (proj1 (font_classification "Droid Serif")).
  exists "Serif". split; [simpl; tauto|]. exists "Droid ", EmptyString. reflexivity.
Defined.

(** C7, as stated, fails: this name contains the monospace keyword
    [Monospace], and it is classified [serif], with the serif fallback. *)
Lemma font_with_both_keywords_is_serif :
  contains_any "Times Monospace" ["Courier"; "Monaco"; "Consolas"; "Monospace"] /\
  categorizeFontFamily "Times Monospace" <> "monospace" /\
  categorizeFontFamily "Times Monospace" = "serif" /\
  getFontFallback "Times Monospace" = "Georgia, serif".
Proof.
  split; [|split; [discriminate|split; reflexivity]].
  exists "Monospace". split; [simpl; tauto|]. exists "Times ", EmptyString. reflexivity.
Qed.

(** ** The analyzer *)

Lemma hexToRgb_hex_color (h : string) :
  is_hex_color h = true -> exists rgb, hexToRgb h = Some rgb.
Proof.
  unfold is_hex_color. destruct (strip_prefix "#" h) as [digits|] eqn:Hp; [|discriminate].
  apply strip_prefix_spec in Hp as ->. intros [Hlen Hall]%andb_true_iff.
  apply Nat.eqb_eq in Hlen.
  destruct digits as [|c1 [|c2 [|c3 [|c4 [|c5 [|c6 [|? ?]]]]]]]; try discriminate.
  cbn [all_chars] in Hall.
  repeat (apply andb_true_iff in Hall as [?Hc Hall]).
  unfold hexToRgb. cbn [String.append forallb].
  rewrite Hc, Hc0, Hc1, Hc2, Hc3, Hc4. eauto.
Qed.

Lemma categorizeColor_hex_color (h : string) :
  is_hex_color h = true -> exists usage, categorizeColor h = Ok usage.
Proof.
  intros [rgb Hrgb]%hexToRgb_hex_color. unfold categorizeColor. rewrite Hrgb. eauto.
Qed.

Lemma map_result_ok {A B} (f : A -> result B) (xs : list A) :
  Forall (fun x => exists y, f x = Ok y) xs -> exists ys, map_result f xs = Ok ys.
Proof.
  induction 1 as [|x xs [y Hy] _ [ys Hys]]; cbn [map_result].
  - eauto.
  - rewrite Hy. cbn. rewrite Hys. cbn. eauto.
Qed.

Lemma analyzeColors_hex_colors (colors : list string) :
  Forall (fun c => is_hex_color (rgbToHex c) = true) colors ->
  exists analysis, analyzeColors colors = Ok analysis.
Proof.
  intros Hall. unfold analyzeColors.
  destruct (map_result_ok process_color colors) as [processed ->]; [|cbn; eauto].
  eapply Forall_impl; [exact Hall|]. intros c [usage Hu]%categorizeColor_hex_color.
  unfold process_color. rewrite Hu. cbn. eauto.
Qed.

Section AnalyzerFacts.

Context `{JsonParser}.

(** The recommendation step returns on every input. *)
Lemma getAIRecommendations_returns (site : ScrapedSite) (reply : ai_reply) :
  exists value, getAIRecommendations site reply = Ok value.
Proof.
  unfold getAIRecommendations.
  destruct (products site); cbn; [|eauto].
  destruct reply as [| |content]; cbn; [eauto..|].
  destruct (JSON_parse (default "null" content)); cbn; eauto.
Qed.

(** [analyzeDesign] returns an analysis for every site each of whose colors
    normalises to [#] and six hex digits. With an
    empty color list the three roles are [#000000], [#666666] and [#0066cc];
    with an empty font list heading and body are both the entry of family
    Arial and category sans-serif. *)
Theorem analyzeDesign_returns (site : ScrapedSite) (reply : ai_reply) :
  Forall (fun c => is_hex_color (rgbToHex c) = true) (colors (design site)) ->
  exists analysis,
    analyzeDesign site reply = Ok analysis /\
    (colors (design site) = [] ->
       primary (a_colors analysis) = "#000000" /\
       secondary (a_colors analysis) = "#666666" /\
       accent (a_colors analysis) = "#0066cc") /\
    (fonts (design site) = [] ->
       heading (a_typography analysis)
       = {| family := "Arial"; category := "sans-serif"; fallback := None |} /\
       body (a_typography analysis)
       = {| family := "Arial"; category := "sans-serif"; fallback := None |}).
Proof.
  intros Hall. unfold analyzeDesign.
  destruct (getAIRecommendations_returns site reply) as [value Hvalue].
  destruct (colors (design site)) as [|c cs] eqn:Hcolors.
  - rewrite Hvalue. cbn. eexists. split; [reflexivity|]. cbn.
    split; [auto|]. intros ->. auto.
  - destruct (analyzeColors_hex_colors (c :: cs) Hall) as [analysis ->].
    rewrite Hvalue. cbn. eexists. split; [reflexivity|]. cbn.
    split; [discriminate|]. intros ->. auto.
Qed.

(** C3. When the completion call throws, answers without a message, or
    answers with a text that [JSON.parse] rejects, [getAIRecommendations]
    returns the fixed object of four lists of three items. *)
Theorem getAIRecommendations_fallback (site : ScrapedSite) (reply : ai_reply) :
  reply = Rejected \/ reply = Malformed \/
  (exists content, reply = Content content /\ JSON_parse (default "null" content) = None) ->
  getAIRecommendations site reply
  = Ok (Fallback
          {| improvements := ["Modern design patterns"; "Better color contrast"; "Clear CTAs"];
             ux := ["Simplified navigation"; "Faster load times"; "Better mobile experience"];
             mobile_tips := ["Touch-friendly buttons"; "Responsive images"; "Optimized fonts"];
             conversion := ["Clear value proposition"; "Trust badges"; "Simplified checkout"] |}).
Proof.
  intros Hfail. unfold getAIRecommendations.
  destruct (products site); cbn; [|reflexivity].
  destruct Hfail as [->| [->| (content & -> & Hparse)]]; cbn; [reflexivity..|].
  now rewrite Hparse.
Qed.

(** C5. Two runs of [analyzeDesign] on one site, whatever the completion
    service does in each, both return or both raise the same exception, and
    two returned analyses agree on every field but [aiRecommendations]. *)
Theorem analyzeDesign_deterministic (site : ScrapedSite) (reply1 reply2 : ai_reply) :
  match analyzeDesign site reply1, analyzeDesign site reply2 with
  | Ok a1, Ok a2 => same_but_recommendations a1 a2
  | Raise e1, Raise e2 => e1 = e2
  | _, _ => False
  end.
Proof.
  unfold analyzeDesign.
  destruct (getAIRecommendations_returns site reply1) as [v1 ->].
  destruct (getAIRecommendations_returns site reply2) as [v2 ->].
  destruct (analyzeColors (colors (design site))) as [analysis|e]; cbn.
  - repeat split.
  - reflexivity.
Qed.

End AnalyzerFacts.

Lemma analyzeDesign_returns_witness :
  exists analysis,
    @analyzeDesign keyword_json
      (sample_site ["rgb(255, 0, 0)"; "#00ff00"; "transparent"] []) Rejected
    = Ok analysis /\
    (colors (design (sample_site ["rgb(255, 0, 0)"; "#00ff00"; "transparent"] [])) = [] ->
       primary (a_colors analysis) = "#000000" /\
       secondary (a_colors analysis) = "#666666" /\
       accent (a_colors analysis) = "#0066cc") /\
    (fonts (design (sample_site ["rgb(255, 0, 0)"; "#00ff00"; "transparent"] [])) = [] ->
       heading (a_typography analysis)
       = {| family := "Arial"; category := "sans-serif"; fallback := None |} /\
       body (a_typography analysis)
       = {| family := "Arial"; category := "sans-serif"; fallback := None |}).
Proof.
  apply (@analyzeDesign_returns keyword_json
           (sample_site ["rgb(255, 0, 0)"; "#00ff00"; "transparent"] []) Rejected).
  simpl. repeat constructor.
Defined.

(** C1. The analysis of a site whose colors are the three-digit color [#fff]
    raises a TypeError, where C1 has it return with defaults: [rgbToHex]
    returns the string unchanged, [hexToRgb] answers [null] for it, and
    [categorizeColor] reads the red channel of that [null].  The completion
    service answered with JSON, so the exception is not its doing. *)
Lemma analyzeDesign_raises_on_short_hex :
  @analyzeDesign keyword_json (sample_site ["#fff"] ["Arial"]) (Content (Some "null"))
  = Raise TypeError.
Proof. vm_compute. reflexivity. Qed.

Lemma getAIRecommendations_fallback_witness :
  @getAIRecommendations keyword_json (sample_site [] []) (Content (Some "<html>"))
  = Ok (Fallback
          {| improvements := ["Modern design patterns"; "Better color contrast"; "Clear CTAs"];
             ux := ["Simplified navigation"; "Faster load times"; "Better mobile experience"];
             mobile_tips := ["Touch-friendly buttons"; "Responsive images"; "Optimized fonts"];
             conversion := ["Clear value proposition"; "Trust badges"; "Simplified checkout"] |}).
Proof.
  apply (@getAIRecommendations_fallback keyword_json).
  right. right. exists (Some "<html>"). split; reflexivity.
Defined.

(** ** The template synthesizer *)

Lemma selectBaseTemplate_layout (analysis : AnalysisObject) (layout : LayoutAnalysis) :
  o_layout analysis = Some layout ->
  selectBaseTemplate analysis
  = Ok (if header (structure layout) && footer (structure layout)
        then "modern" else "minimal").
Proof. intros Hlayout. unfold selectBaseTemplate. now rewrite Hlayout. Qed.

Lemma selectComponents_layout (analysis : AnalysisObject) (layout : LayoutAnalysis) :
  o_layout analysis = Some layout ->
  selectComponents analysis
  = Ok ((match o_products analysis with
         | Some products =>
             if 0 <? count products
             then [CProductGrid 4 (hasPrices products) (hasImages products)]
             else []
         | None => []
         end)
        ++ (if navigation (structure layout) then [CNavigation "horizontal" "header"] else [])
        ++ [CSearch "header" "inline"; CCart "header" "icon"]).
Proof.
  intros Hlayout. unfold selectComponents. rewrite Hlayout. cbn.
  destruct (o_products analysis) as [products|];
    [destruct (0 <? count products)|]; destruct (navigation (structure layout));
    reflexivity.
Qed.

Section SynthesizerFacts.

Context `{JsonParser}.

(** C8. For every analysis, the base template is [modern] when the header
    flag and the footer flag of its layout structure are both set, and
    [minimal] for every other combination of the two. *)
Theorem selectBaseTemplate_binary (analysis : DesignAnalysis) :
  (header (structure (a_layout analysis)) = true /\
   footer (structure (a_layout analysis)) = true ->
     selectBaseTemplate (as_object analysis) = Ok "modern") /\
  (header (structure (a_layout analysis)) = false \/
   footer (structure (a_layout analysis)) = false ->
     selectBaseTemplate (as_object analysis) = Ok "minimal").
Proof.
  rewrite (selectBaseTemplate_layout (as_object analysis) (a_layout analysis) eq_refl).
  split.
  - intros [-> ->]. reflexivity.
  - intros [->| ->]; [reflexivity|]. now rewrite andb_false_r.
Qed.

(** C9. For every analysis the component list is, in this order: a
    product-grid entry carrying [hasPrices] and [hasImages] exactly when the
    product count is above zero, a navigation entry exactly when the layout
    reports navigation, then the search entry and the cart entry. With
    products and without navigation the list is product-grid, search, cart. *)
Theorem selectComponents_order (analysis : DesignAnalysis) :
  selectComponents (as_object analysis)
  = Ok ((match a_products analysis with
         | Some products =>
             if 0 <? count products
             then [CProductGrid 4 (hasPrices products) (hasImages products)]
             else []
         | None => []
         end)
        ++ (if navigation (structure (a_layout analysis))
            then [CNavigation "horizontal" "header"] else [])
        ++ [CSearch "header" "inline"; CCart "header" "icon"]) /\
  (forall products,
     a_products analysis = Some products -> 0 < count products ->
     navigation (structure (a_layout analysis)) = false ->
     exists components,
       selectComponents (as_object analysis) = Ok components /\
       components = [CProductGrid 4 (hasPrices products) (hasImages products);
                     CSearch "header" "inline"; CCart "header" "icon"] /\
       map component_type components = ["product-grid"; "search"; "cart"]).
Proof.
  rewrite (selectComponents_layout (as_object analysis) (a_layout analysis) eq_refl).
  cbn [as_object o_products]. split; [reflexivity|].
  intros products -> Hcount%Z.ltb_lt ->. rewrite Hcount.
  eexists. split; [reflexivity|]. split; reflexivity.
Qed.

End SynthesizerFacts.

Lemma selectBaseTemplate_binary_witness :
  selectBaseTemplate (as_object (analysis_with true false true [])) = Ok "modern" /\
  selectBaseTemplate (as_object (analysis_with true false false [])) = Ok "minimal".
Proof.
  split.
  - apply (proj1 (selectBaseTemplate_binary (analysis_with true false true []))).
    split; reflexivity.
  - apply (proj2 (selectBaseTemplate_binary (analysis_with true false false []))).
    right. reflexivity.
Defined.

Lemma selectComponents_order_witness :
  exists components,
    selectComponents (as_object (analysis_with true false true [lamp])) = Ok components /\
    components = [CProductGrid 4 true false;
                  CSearch "header" "inline"; CCart "header" "icon"] /\
    map component_type components = ["product-grid"; "search"; "cart"].
Proof.
  apply (proj2 (selectComponents_order (analysis_with true false true [lamp]))
           _ eq_refl); [reflexivity|reflexivity].
Defined.

#[local] Arguments stylesheet : simpl never.

(** The stylesheet of an analysis whose font entries are the default one. *)
Lemma stylesheet_of_default_fonts (primary secondary accent : string) :
  includes (stylesheet primary secondary accent "Arial" "undefined" "Arial" "undefined")
    "--font-heading: Arial, undefined;" = true /\
  includes (stylesheet primary secondary accent "Arial" "undefined" "Arial" "undefined")
    "--font-body: Arial, undefined;" = true.
Proof.
  unfold stylesheet.
  split; do 6 apply includes_append_r; vm_compute; reflexivity.
Qed.

Section BuilderFacts.

Context `{JsonParser}.

(** C10. When the font list of the site is empty, the heading and body
    entries of the analysis have family Arial, category sans-serif and no
    fallback, and the stylesheet generated from the analysis sets both
    [--font-heading] and [--font-body] to [Arial, undefined]. *)
Theorem empty_fonts_give_undefined_fallback
    (site : ScrapedSite) (reply : ai_reply) (analysis : DesignAnalysis) :
  fonts (design site) = [] ->
  analyzeDesign site reply = Ok analysis ->
  heading (a_typography analysis)
  = {| family := "Arial"; category := "sans-serif"; fallback := None |} /\
  body (a_typography analysis)
  = {| family := "Arial"; category := "sans-serif"; fallback := None |} /\
  exists css,
    generateCSS (as_object analysis) = Ok css /\
    includes css "--font-heading: Arial, undefined;" = true /\
    includes css "--font-body: Arial, undefined;" = true.
Proof.
  intros Hfonts. unfold analyzeDesign. rewrite Hfonts.
  destruct (analyzeColors (colors (design site))) as [palette|e]; cbn; [|discriminate].
  destruct (getAIRecommendations site reply) as [value|e]; cbn; [|discriminate].
  intros [= <-]. cbn. split; [reflexivity|]. split; [reflexivity|].
  eexists. split; [reflexivity|].
  apply stylesheet_of_default_fonts.
Qed.

End BuilderFacts.

Lemma empty_fonts_give_undefined_fallback_witness :
  exists css,
    generateCSS (as_object (analysis_with true false true [])) = Ok css /\
    includes css "--font-heading: Arial, undefined;" = true /\
    includes css "--font-body: Arial, undefined;" = true.
Proof.
  apply (@empty_fonts_give_undefined_fallback keyword_json
           (site_with true false true []) Rejected (analysis_with true false true [])
           eq_refl eq_refl).
Defined.

Section StoreFacts.

Variable html_skeleton : string.
Variable save : StoreRecord -> result unit.

(** C4, on the catalog path. A request whose template id is in the catalog
    builds no store record: the catalog entry has no [customizations], and
    reading [template.customizations.components] raises a TypeError. *)
Theorem createStore_catalog_template_raises (now : Z) (request : Request) (id : string) :
  req_templateId request = Some id ->
  is_Some (templates !! id) ->
  createStore html_skeleton save now request = Raise TypeError.
Proof.
  intros Hid [entry Hentry]. unfold createStore. rewrite Hid. cbn. rewrite Hentry. cbn.
  destruct (truthy (si_subdomain (req_storeInfo request))); cbn;
    [|destruct (si_name (req_storeInfo request)); cbn; [|reflexivity]];
    destruct (o_colors (req_customizations request)); cbn; try reflexivity;
    destruct (o_fonts (req_customizations request)); reflexivity.
Qed.

End StoreFacts.

Lemma createStore_catalog_template_raises_witness :
  createStore EmptyString (fun _ => Ok ()) 0 modern_request = Raise TypeError.
Proof.
  apply (createStore_catalog_template_raises EmptyString (fun _ => Ok ()) 0
           modern_request "modern" eq_refl).
  vm_compute. eauto.
Defined.

(** * Further properties *)

(** ** Color normalisation *)

Lemma startsWith_hash (s : string) : startsWith "#" (String "#" s) = true.
Proof. apply startsWith_spec. exists s. reflexivity. Qed.

Lemma rgbToHex_starts (s : string) : exists t, rgbToHex s = String "#" t.
Proof.
  unfold rgbToHex. destruct (startsWith "#" s) eqn:Hs.
  - apply startsWith_spec in Hs as [t ->]. eauto.
  - destruct (rgb_match s) as [[[m1 m2] m3]|]; eauto.
Qed.

(** X1. Whatever the text, [rgbToHex] returns a string that starts with [#],
    and normalising twice is normalising once. *)
Theorem rgbToHex_idempotent (s : string) :
  startsWith "#" (rgbToHex s) = true /\ rgbToHex (rgbToHex s) = rgbToHex s.
Proof.
  assert (Hhash : startsWith "#" (rgbToHex s) = true).
  { unfold rgbToHex. destruct (startsWith "#" s) eqn:Hs; [exact Hs|].
    destruct (rgb_match s) as [[[m1 m2] m3]|]; apply startsWith_hash. }
  split; [exact Hhash|].
  unfold rgbToHex at 1. now rewrite Hhash.
Qed.

Lemma rgb_match_alpha_text (red green blue : Z) (tail : string) :
  0 <= red <= 255 -> 0 <= green <= 255 -> 0 <= blue <= 255 ->
  match tail with String c _ => is_digit c = false | EmptyString => True end ->
  rgb_match ("rgba(" +:+ toString10 red +:+ ", " +:+ toString10 green +:+ ", "
             +:+ toString10 blue +:+ tail)
  = Some (toString10 red, toString10 green, toString10 blue).
Proof.
  intros Hr Hg Hb Htail.
  destruct (channel_ok red Hr) as (c1 & d1 & _ & _ & E1 & Hc1 & Hd1 & _).
  destruct (channel_ok green Hg) as (c2 & d2 & _ & _ & E2 & Hc2 & Hd2 & _).
  destruct (channel_ok blue Hb) as (c3 & d3 & _ & _ & E3 & Hc3 & Hd3 & _).
  rewrite E1, E2, E3 in *.
  change ("rgba(" +:+ ?s)
    with (String "r" (String "g" (String "b" (String "a" (String "(" s))))).
  unfold rgb_match; fold rgb_match. unfold rgb_match_here.
  cbn [strip_prefix Ascii.eqb Bool.eqb mbind option_bind].
  rewrite (digits1_head c1 d1 _ Hc1 Hd1) by reflexivity.
  cbn [mbind option_bind]. change (", " +:+ ?s) with (String "," (String " " s)).
  cbn [strip_prefix Ascii.eqb Bool.eqb mbind option_bind].
  change (String c2 d2 +:+ ?s) with (String c2 (d2 +:+ s)).
  rewrite (skip_space_before_digit c2 _ Hc2).
  change (String c2 (d2 +:+ ?s)) with (String c2 d2 +:+ s).
  rewrite (digits1_head c2 d2 _ Hc2 Hd2) by reflexivity.
  cbn [mbind option_bind]. change (", " +:+ ?s) with (String "," (String " " s)).
  cbn [strip_prefix Ascii.eqb Bool.eqb mbind option_bind].
  change (String c3 d3 +:+ ?s) with (String c3 (d3 +:+ s)).
  rewrite (skip_space_before_digit c3 _ Hc3).
  change (String c3 (d3 +:+ ?s)) with (String c3 d3 +:+ s).
  rewrite (digits1_head c3 d3 _ Hc3 Hd3) by exact Htail.
  reflexivity.
Qed.

(** X2. The alpha channel is dropped: for channel values in 0..255, the text
    [rgba(r, g, b] followed by anything that does not start with a digit
    normalises to the same string as [rgb(r, g, b)]. *)
Theorem rgbToHex_ignores_alpha (red green blue : Z) (tail : string) :
  0 <= red <= 255 -> 0 <= green <= 255 -> 0 <= blue <= 255 ->
  match tail with String c _ => is_digit c = false | EmptyString => True end ->
  rgbToHex ("rgba(" +:+ toString10 red +:+ ", " +:+ toString10 green +:+ ", "
            +:+ toString10 blue +:+ tail)
  = rgbToHex (rgb_text red green blue).
Proof.
  intros Hr Hg Hb Htail.
  rewrite (rgbToHex_text red green blue Hr Hg Hb).
  unfold rgbToHex at 1.
  rewrite (rgb_match_alpha_text red green blue tail Hr Hg Hb Htail).
  reflexivity.
Qed.

Lemma rgbToHex_ignores_alpha_witness :
  rgbToHex ("rgba(" +:+ toString10 12 +:+ ", " +:+ toString10 200 +:+ ", "
            +:+ toString10 7 +:+ ", 0.5)")
  = rgbToHex (rgb_text 12 200 7).
Proof.
  apply (rgbToHex_ignores_alpha 12 200 7 ", 0.5)"); [lia|lia|lia|reflexivity].
Defined.

Lemma rgb_match_without_rgb (s : string) :
  includes s "rgb" = false -> rgb_match s = None.
Proof.
  induction s as [|c s IH]; cbn [includes rgb_match].
  - intros _. reflexivity.
  - intros [Hhere Hrest]%orb_false_iff.
    assert (Hstrip : strip_prefix "rgb" (String c s) = None).
    { unfold startsWith in Hhere. apply bool_decide_eq_false in Hhere.
      destruct (strip_prefix "rgb" (String c s)); [|reflexivity].
      exfalso. apply Hhere. eauto. }
    unfold rgb_match_here. rewrite Hstrip. cbn [mbind option_bind].
    apply IH, Hrest.
Qed.

(** X3. A color text that does not start with [#] and has no [rgb] in it,
    such as a color name or an [hsl(...)] form, normalises to [#000000]. *)
Theorem rgbToHex_unparsable (s : string) :
  startsWith "#" s = false -> includes s "rgb" = false -> rgbToHex s = "#000000".
Proof.
  intros Hhash Hrgb. unfold rgbToHex.
  now rewrite Hhash, (rgb_match_without_rgb s Hrgb).
Qed.

Lemma rgbToHex_unparsable_witness : rgbToHex "hsl(120, 50%, 50%)" = "#000000".
Proof. apply rgbToHex_unparsable; reflexivity. Defined.

Lemma digit_value_bounds (c : ascii) : 0 <= default 0 (digit_value 16 c) <= 15.
Proof.
  unfold digit_value.
  destruct (is_digit c) eqn:Hd; [|destruct (between 97 102 c) eqn:Hl;
    [|destruct (between 65 70 c) eqn:Hu]]; cbn;
    unfold is_digit, between in *;
    repeat match goal with
           | H : (_ && _) = true |- _ => apply andb_true_iff in H as [?%Z.leb_le ?%Z.leb_le]
           end;
    try (destruct (_ <? 16) eqn:Hlt; cbn; [apply Z.ltb_lt in Hlt|]); lia.
Qed.

Lemma hex_pair_bounds (c1 c2 : ascii) : 0 <= hex_pair c1 c2 <= 255.
Proof.
  unfold hex_pair. cbn [digits_value].
  pose proof (digit_value_bounds c1). pose proof (digit_value_bounds c2). lia.
Qed.

(** X4. Every channel that [hexToRgb] reads is between 0 and 255. *)
Theorem hexToRgb_bounds (h : string) (rgb : Rgb) :
  hexToRgb h = Some rgb ->
  0 <= r rgb <= 255 /\ 0 <= g rgb <= 255 /\ 0 <= b rgb <= 255.
Proof.
  unfold hexToRgb.
  destruct (match h with String "#" t => t | _ => h end)
    as [|r1 [|r2 [|g1 [|g2 [|b1 [|b2 [|? ?]]]]]]]; try discriminate.
  destruct (forallb _ _); [|discriminate]. intros [= <-]. cbn.
  split; [|split]; apply hex_pair_bounds.
Qed.

Lemma hexToRgb_bounds_witness :
  hexToRgb "#12ABef" = Some {| r := 18; g := 171; b := 239 |} /\
  (0 <= 18 <= 255 /\ 0 <= 171 <= 255 /\ 0 <= 239 <= 255).
Proof.
  split; [reflexivity|].
  apply (hexToRgb_bounds "#12ABef" {| r := 18; g := 171; b := 239 |}). reflexivity.
Defined.

Lemma hex_digit_in_hex_chars (c : ascii) : is_hex_digit c = true -> In c hex_chars.
Proof.
  destruct c as [[] [] [] [] [] [] [] []]; vm_compute; intros Hc;
    first [discriminate Hc | tauto].
Qed.

Lemma pairs_checked :
  forallb (fun c1 => forallb (pair_check c1) hex_chars) hex_chars = true.
Proof. vm_compute. reflexivity. Qed.

Lemma hex_of_pair (c1 c2 : ascii) :
  is_hex_digit c1 = true -> is_hex_digit c2 = true ->
  hex (toString10 (hex_pair c1 c2)) = toLowerCase (String c1 (String c2 EmptyString)).
Proof.
  intros H1%hex_digit_in_hex_chars H2%hex_digit_in_hex_chars.
  pose proof pairs_checked as Hall. rewrite forallb_forall in Hall.
  specialize (Hall c1 H1). rewrite forallb_forall in Hall.
  specialize (Hall c2 H2). now apply String.eqb_eq in Hall.
Qed.

(** X5. Reading a color of [#] and six hex digits and normalising the
    [rgb(r, g, b)] text of the three values gives the color back, in lower
    case. *)
Theorem hexToRgb_then_rgbToHex (h : string) :
  is_hex_color h = true ->
  exists rgb,
    hexToRgb h = Some rgb /\
    rgbToHex (rgb_text (r rgb) (g rgb) (b rgb)) = toLowerCase h.
Proof.
  unfold is_hex_color. destruct (strip_prefix "#" h) as [digits|] eqn:Hp; [|discriminate].
  apply strip_prefix_spec in Hp as ->. intros [Hlen Hall]%andb_true_iff.
  apply Nat.eqb_eq in Hlen.
  destruct digits as [|c1 [|c2 [|c3 [|c4 [|c5 [|c6 [|? ?]]]]]]]; try discriminate.
  cbn [all_chars] in Hall.
  repeat (apply andb_true_iff in Hall as [?Hc Hall]).
  unfold hexToRgb. cbn [String.append forallb].
  rewrite Hc, Hc0, Hc1, Hc2, Hc3, Hc4. cbn [andb].
  eexists. split; [reflexivity|]. cbn [r g b].
  rewrite rgbToHex_text by apply hex_pair_bounds.
  rewrite !hex_of_pair by assumption. reflexivity.
Qed.

Lemma hexToRgb_then_rgbToHex_witness :
  exists rgb,
    hexToRgb "#12ABef" = Some rgb /\
    rgbToHex (rgb_text (r rgb) (g rgb) (b rgb)) = toLowerCase "#12ABef".
Proof. apply (hexToRgb_then_rgbToHex "#12ABef"). reflexivity. Defined.

(** ** Color analysis *)

Lemma map_result_inv {A B} (f : A -> result B) (xs : list A) (ys : list B) :
  map_result f xs = Ok ys -> Forall2 (fun x y => f x = Ok y) xs ys.
Proof.
  revert ys. induction xs as [|x xs IH]; cbn [map_result]; intros ys.
  - intros [= <-]. constructor.
  - destruct (f x) as [y|e] eqn:Hy; cbn; [|discriminate].
    destruct (map_result f xs) as [ys'|e]; cbn; [|discriminate].
    intros [= <-]. constructor; [exact Hy|]. now apply IH.
Qed.

Lemma map_result_raise {A B} (f : A -> result B) (xs : list A) (e : error) :
  map_result f xs = Raise e -> Exists (fun x => f x = Raise e) xs.
Proof.
  induction xs as [|x xs IH]; cbn [map_result]; [discriminate|].
  destruct (f x) as [y|e'] eqn:Hy; cbn.
  - destruct (map_result f xs) as [ys|e'']; cbn; [discriminate|].
    intros [= ->]. right. now apply IH.
  - intros [= ->]. now left.
Qed.

Lemma process_color_inv (color : string) (p : ProcessedColor) :
  process_color color = Ok p ->
  original p = color /\ color_hex p = rgbToHex color /\
  is_Some (hexToRgb (rgbToHex color)).
Proof.
  unfold process_color, categorizeColor.
  destruct (hexToRgb (rgbToHex color)); cbn; [|discriminate].
  intros [= <-]. cbn. eauto.
Qed.

Lemma process_color_raise (color : string) (e : error) :
  process_color color = Raise e ->
  e = TypeError /\ hexToRgb (rgbToHex color) = None.
Proof.
  unfold process_color, categorizeColor.
  destruct (hexToRgb (rgbToHex color)); cbn; [discriminate|].
  intros [= <-]. auto.
Qed.

Lemma or_str_rgbToHex (color d : string) : or_str (Some (rgbToHex color)) d = rgbToHex color.
Proof.
  destruct (rgbToHex_starts color) as [t ->]. reflexivity.
Qed.

(** X6. When [analyzeColors] returns, [all] has one entry per color, in the
    order of the input, each with the color as [original] and its
    normalisation as [hex]; primary, secondary and accent are the
    normalisations of the first, second and third color, whatever their
    usage, with the defaults where the list is shorter. *)
Theorem analyzeColors_by_position (colors : list string) (analysis : ColorAnalysis) :
  analyzeColors colors = Ok analysis ->
  map original (colors_all analysis) = colors /\
  map color_hex (colors_all analysis) = map rgbToHex colors /\
  primary analysis = default "#000000" (rgbToHex <$> colors !! 0%nat) /\
  secondary analysis = default "#666666" (rgbToHex <$> colors !! 1%nat) /\
  accent analysis = default "#0066cc" (rgbToHex <$> colors !! 2%nat).
Proof.
  unfold analyzeColors.
  destruct (map_result process_color colors) as [processed|e] eqn:Hmap; cbn; [|discriminate].
  intros [= <-]. cbn. apply map_result_inv in Hmap.
  assert (Hhex : map color_hex processed = map rgbToHex colors).
  { induction Hmap as [|c p cs ps Hp _ IH]; [reflexivity|].
    cbn. apply process_color_inv in Hp as (_ & -> & _). now rewrite IH. }
  assert (Hnth : forall i, color_hex <$> processed !! i = rgbToHex <$> colors !! i).
  { clear Hhex. induction Hmap as [|c p cs ps Hp _ IH]; intros [|i]; cbn;
      [reflexivity|reflexivity| |apply IH].
    apply process_color_inv in Hp as (_ & -> & _). reflexivity. }
  split; [|split; [exact Hhex|]].
  - clear Hhex Hnth. induction Hmap as [|c p cs ps Hp _ IH]; [reflexivity|].
    cbn. apply process_color_inv in Hp as (-> & _). f_equal. apply IH.
  - rewrite !Hnth.
    split; [|split]; (destruct (colors !! _) as [c|]; [apply or_str_rgbToHex|reflexivity]).
Qed.

Lemma analyzeColors_by_position_witness :
  primary two_colors_analysis = default "#000000" (Some (rgbToHex "rgb(255, 255, 255)")) /\
  secondary two_colors_analysis = default "#666666" (Some (rgbToHex "rgb(0, 0, 0)")) /\
  accent two_colors_analysis = default "#0066cc" None.
Proof.
  apply (analyzeColors_by_position ["rgb(255, 255, 255)"; "rgb(0, 0, 0)"]
           two_colors_analysis eq_refl).
Defined.

Section ColorFailure.

Context `{JsonParser}.

(** X7. [analyzeDesign] raises exactly when one of the colors normalises to
    a string that [hexToRgb] does not read, and what it raises is then a
    TypeError; the completion service has no part in it. *)
Theorem analyzeDesign_raises_iff (site : ScrapedSite) (reply : ai_reply) :
  (analyzeDesign site reply = Raise TypeError <->
   Exists (fun c => hexToRgb (rgbToHex c) = None) (colors (design site))) /\
  (forall e, analyzeDesign site reply = Raise e -> e = TypeError).
Proof.
  unfold analyzeDesign, analyzeColors.
  destruct (getAIRecommendations_returns site reply) as [value ->].
  destruct (map_result process_color (colors (design site))) as [processed|e] eqn:Hmap; cbn.
  - split; [split; [discriminate|]|discriminate].
    intros Hbad. exfalso. apply map_result_inv in Hmap.
    induction Hmap as [|c p cs ps Hp _ IH].
    + inversion Hbad.
    + apply process_color_inv in Hp as (_ & _ & [rgb Hrgb]).
      inversion Hbad; subst; [congruence|auto].
  - apply map_result_raise in Hmap.
    assert (He : e = TypeError).
    { induction Hmap as [c cs Hc|c cs _ IH]; [|exact IH].
      now apply process_color_raise in Hc. }
    subst e. split; [split; [intros _|reflexivity]|now intros e [= <-]].
    eapply Exists_impl; [exact Hmap|]. intros c Hc. now apply process_color_raise in Hc.
Qed.

End ColorFailure.

(** ** Typography *)

(** X8. Every entry of [all] has the category of its family and the fallback
    stack of that category, one of three pairs; with at least one font the
    heading is the first entry and has a fallback; with one font only the
    body is the heading; with two or more the body is the second entry. *)
Theorem analyzeTypography_roles (fonts : list string) :
  Forall (fun e =>
            category e = categorizeFontFamily (family e) /\
            (category e = "serif" /\ fallback e = Some "Georgia, serif" \/
             category e = "monospace" /\ fallback e = Some "Courier New, monospace" \/
             category e = "sans-serif" /\ fallback e = Some "Arial, sans-serif"))
         (typography_all (analyzeTypography fonts)) /\
  length (typography_all (analyzeTypography fonts)) = length fonts /\
  (forall f rest, fonts = f :: rest ->
     heading (analyzeTypography fonts) = process_font f /\
     is_Some (fallback (heading (analyzeTypography fonts))) /\
     is_Some (fallback (body (analyzeTypography fonts)))) /\
  (forall f, fonts = [f] ->
     body (analyzeTypography fonts) = heading (analyzeTypography fonts)) /\
  (forall f1 f2 rest, fonts = f1 :: f2 :: rest ->
     body (analyzeTypography fonts) = process_font f2).
Proof.
  unfold analyzeTypography. cbn [typography_all heading body].
  split; [|split; [apply length_map|split; [|split]]].
  - apply List.Forall_forall. intros e [f [<- _]]%in_map_iff.
    unfold process_font, getFontFallback, categorizeFontFamily.
    cbn [family category fallback]. split; [reflexivity|].
    destruct (existsb (includes (clean_font f)) serif_keywords); [auto|].
    destruct (existsb (includes (clean_font f)) monospace_keywords); auto.
  - intros f rest ->. cbn. split; [reflexivity|]. split; [eauto|].
    destruct rest; cbn; eauto.
  - intros f ->. reflexivity.
  - intros f1 f2 rest ->. reflexivity.
Qed.

Lemma analyzeTypography_roles_witness :
  body (analyzeTypography ["Georgia, serif"]) = heading (analyzeTypography ["Georgia, serif"]).
Proof.
  apply (proj1 (proj2 (proj2 (proj2 (analyzeTypography_roles ["Georgia, serif"]))))
           "Georgia, serif" eq_refl).
Defined.

Lemma all_chars_rev_app (p : ascii -> bool) (s acc : string) :
  all_chars p (String.rev_app s acc) = all_chars p s && all_chars p acc.
Proof.
  revert acc. induction s as [|c s IH]; intros acc; cbn; [reflexivity|].
  rewrite IH. cbn. now destruct (p c), (all_chars p s).
Qed.

Lemma all_chars_rev (p : ascii -> bool) (s : string) :
  all_chars p (String.rev s) = all_chars p s.
Proof. unfold String.rev. rewrite all_chars_rev_app. cbn. apply andb_true_r. Qed.

Lemma all_chars_span (p q : ascii -> bool) (s : string) :
  all_chars p s = true ->
  all_chars p (fst (span q s)) = true /\ all_chars p (snd (span q s)) = true.
Proof.
  induction s as [|c s IH]; cbn; [auto|].
  intros [Hc Hs]%andb_true_iff. destruct (IH Hs) as [Hfst Hsnd].
  destruct (q c); [|cbn; rewrite Hc, Hs; auto].
  destruct (span q s) as [a rest]. cbn in *. now rewrite Hc, Hfst.
Qed.

Lemma all_chars_span_fst (q : ascii -> bool) (s : string) :
  all_chars q (fst (span q s)) = true.
Proof.
  induction s as [|c s IH]; cbn; [reflexivity|].
  destruct (q c) eqn:Hc; [|reflexivity].
  destruct (span q s) as [a rest]. cbn in *. now rewrite Hc, IH.
Qed.

Lemma all_chars_filter (p : ascii -> bool) (s : string) :
  all_chars p (filter_chars p s) = true.
Proof.
  induction s as [|c s IH]; cbn; [reflexivity|].
  destruct (p c) eqn:Hc; [cbn; now rewrite Hc|exact IH].
Qed.

Lemma all_chars_filter_keeps (p q : ascii -> bool) (s : string) :
  all_chars p s = true -> all_chars p (filter_chars q s) = true.
Proof.
  induction s as [|c s IH]; cbn; [reflexivity|].
  intros [Hc Hs]%andb_true_iff. destruct (q c); [cbn; now rewrite Hc, IH|auto].
Qed.

Lemma all_chars_trim (p : ascii -> bool) (s : string) :
  all_chars p s = true -> all_chars p (trim s) = true.
Proof.
  intros Hs. unfold trim. rewrite all_chars_rev.
  apply all_chars_span. rewrite all_chars_rev. now apply all_chars_span.
Qed.

Lemma all_chars_and (p q : ascii -> bool) (s : string) :
  all_chars p s = true -> all_chars q s = true ->
  all_chars (fun c => p c && q c) s = true.
Proof.
  induction s as [|c s IH]; cbn; [reflexivity|].
  intros [-> Hp]%andb_true_iff [-> Hq]%andb_true_iff. now rewrite IH.
Qed.

Lemma span_append (q : ascii -> bool) (s : string) :
  fst (span q s) +:+ snd (span q s) = s.
Proof.
  induction s as [|c s IH]; cbn; [reflexivity|].
  destruct (q c); [|reflexivity].
  destruct (span q s) as [a rest]. cbn in *. now rewrite IH.
Qed.

Lemma span_rest_head (q : ascii -> bool) (s : string) :
  match snd (span q s) with String c _ => q c = false | EmptyString => True end.
Proof.
  induction s as [|c s IH]; cbn; [exact I|].
  destruct (q c) eqn:Hc; [|exact Hc].
  destruct (span q s) as [a rest]. exact IH.
Qed.

Lemma rev_app_append (s acc : string) :
  String.rev_app s acc = String.rev s +:+ acc.
Proof.
  unfold String.rev. revert acc. induction s as [|c s IH]; intros acc; cbn; [reflexivity|].
  rewrite IH, (IH (String c EmptyString)), append_assoc. reflexivity.
Qed.

Lemma append_empty_r (s : string) : s +:+ EmptyString = s.
Proof. induction s as [|c s IH]; cbn; congruence. Qed.

Lemma rev_append (s t : string) :
  String.rev (s +:+ t) = String.rev t +:+ String.rev s.
Proof.
  induction s as [|c s IH]; cbn.
  - now rewrite append_empty_r.
  - unfold String.rev in *. cbn. rewrite (rev_app_append (s +:+ t)), (rev_app_append s).
    unfold String.rev. rewrite IH. apply append_assoc.
Qed.

Lemma rev_cons (c : ascii) (s : string) :
  String.rev (String c s) = String.rev s +:+ String c EmptyString.
Proof. unfold String.rev at 1. cbn [String.rev_app]. apply rev_app_append. Qed.

Lemma rev_involutive (s : string) : String.rev (String.rev s) = s.
Proof.
  induction s as [|c s IH]; [reflexivity|].
  rewrite rev_cons, rev_append, IH. reflexivity.
Qed.

Lemma trim_ends (s : string) :
  match trim s with String c _ => is_space c = false | EmptyString => True end /\
  match String.rev (trim s) with String c _ => is_space c = false | EmptyString => True end.
Proof.
  unfold trim.
  set (z := snd (span is_space s)).
  set (x := snd (span is_space (String.rev z))).
  split.
  - pose proof (span_append is_space (String.rev z)) as Happ. fold x in Happ.
    apply (f_equal String.rev) in Happ. rewrite rev_append, rev_involutive in Happ.
    pose proof (span_rest_head is_space s) as Hhead. fold z in Hhead.
    destruct (String.rev x) as [|c t]; [exact I|].
    rewrite <- Happ in Hhead. exact Hhead.
  - rewrite rev_involutive. apply span_rest_head.
Qed.

(** X9. The family name taken from a [font-family] value has no single
    quote, no double quote and no comma in it, and neither its first nor its
    last character is white space. *)
Theorem clean_font_characters (font : string) :
  all_chars (fun c => negb (is_quote c) && negb (code c =? 44)) (clean_font font) = true /\
  match clean_font font with
  | String c _ => is_space c = false
  | EmptyString => True
  end /\
  match String.rev (clean_font font) with
  | String c _ => is_space c = false
  | EmptyString => True
  end.
Proof.
  split; [|apply trim_ends].
  unfold clean_font. apply all_chars_trim. apply all_chars_and.
  - apply all_chars_span. apply all_chars_filter.
  - apply all_chars_span_fst.
Qed.

(** ** Product summary and component selection *)

(** X10. The product summary is [null] exactly for a missing or empty
    product list.  Otherwise its count is the number of products and is above
    zero, its samples are the first three products, and [hasPrices] and
    [hasImages] say whether some product has a non-empty price or image. *)
Theorem analyzeProductStructure_summary (found : option (list Product)) :
  (analyzeProductStructure found = None <-> found = None \/ found = Some []) /\
  (forall items summary,
     found = Some items -> analyzeProductStructure found = Some summary ->
     count summary = Z.of_nat (length items) /\
     0 < count summary /\
     samples summary = take 3 items /\
     (length (samples summary) <= 3)%nat /\
     (hasPrices summary = true <-> exists p, In p items /\ price p <> EmptyString) /\
     (hasImages summary = true <->
        exists p src, In p items /\ image p = Some src /\ src <> EmptyString)).
Proof.
  split.
  - destruct found as [[|p items]|]; cbn; split; try tauto; try discriminate.
    intros [|]; discriminate.
  - intros items summary -> Hsum.
    assert (Hitems : (0 < length items)%nat) by (destruct items; [discriminate|cbn; lia]).
    assert (Hsummary : summary =
      {| count := Z.of_nat (length items);
         hasImages := existsb (fun p => bool_decide (is_Some (truthy (image p)))) items;
         hasPrices := existsb (fun p => bool_decide (is_Some (truthy (Some (price p))))) items;
         fields := {| nameField := "name"; priceField := "price";
                      imageField := "image"; linkField := "link" |};
         samples := take 3 items |}).
    { destruct items; [discriminate|]. cbn [analyzeProductStructure] in Hsum. congruence. }
    subst summary. cbn [count samples hasPrices hasImages].
    split; [reflexivity|]. split; [lia|]. split; [reflexivity|].
    split; [rewrite length_take; lia|]. split.
    + rewrite existsb_exists. split; intros (q & Hq & Hprice); exists q; (split; [exact Hq|]).
      * destruct (price q); [vm_compute in Hprice; discriminate|discriminate].
      * destruct (price q); [congruence|reflexivity].
    + rewrite existsb_exists. split.
      * intros (q & Hq & Himage).
        destruct (image q) as [[|c src]|] eqn:Hi; try (vm_compute in Himage; discriminate).
        exists q, (String c src). split; [exact Hq|split; [exact Hi|discriminate]].
      * intros (q & src & Hq & Hi & Hsrc). exists q. split; [exact Hq|].
        rewrite Hi. destruct src; [congruence|reflexivity].
Qed.

Lemma analyzeProductStructure_summary_witness :
  exists summary,
    analyzeProductStructure (Some [lamp]) = Some summary /\
    count summary = 1 /\ samples summary = [lamp] /\
    hasPrices summary = true /\ hasImages summary = false.
Proof.
  eexists. split; [reflexivity|].
  destruct (proj2 (analyzeProductStructure_summary (Some [lamp])) [lamp] _ eq_refl eq_refl)
    as (Hcount & _ & Hsamples & _).
  rewrite Hcount, Hsamples. repeat split.
Defined.

Lemma analyzeDesign_inv `{JsonParser} (site : ScrapedSite) (reply : ai_reply)
    (analysis : DesignAnalysis) :
  analyzeDesign site reply = Ok analysis ->
  analyzeColors (colors (design site)) = Ok (a_colors analysis) /\
  a_typography analysis = analyzeTypography (fonts (design site)) /\
  a_layout analysis = analyzeLayout (layout (design site)) /\
  a_products analysis = analyzeProductStructure (products site) /\
  getAIRecommendations site reply = Ok (aiRecommendations analysis).
Proof.
  unfold analyzeDesign.
  destruct (analyzeColors (colors (design site))) as [palette|e]; cbn; [|discriminate].
  destruct (getAIRecommendations site reply) as [value|e]; cbn; [|discriminate].
  intros [= <-]. cbn. auto.
Qed.

Section Pipeline.

Context `{JsonParser}.
Variable html_skeleton : string.

(** X11. In the template generated from the analysis of a site, the
    component list has a product-grid entry exactly when the scraper found
    at least one product. *)
Theorem product_grid_iff_products (site : ScrapedSite) (reply : ai_reply)
    (analysis : DesignAnalysis) :
  analyzeDesign site reply = Ok analysis ->
  exists list,
    selectComponents (as_object analysis) = Ok list /\
    (In "product-grid" (map component_type list) <->
     exists p rest, products site = Some (p :: rest)).
Proof.
  intros (_ & _ & _ & Hproducts & _)%analyzeDesign_inv.
  rewrite (selectComponents_layout (as_object analysis) (a_layout analysis) eq_refl).
  cbn [as_object o_products]. rewrite Hproducts.
  eexists. split; [reflexivity|].
  destruct (products site) as [[|p rest]|]; cbn [analyzeProductStructure].
  - destruct (navigation _); cbn; split;
      [intuition discriminate|intros (? & ? & [=])|intuition discriminate|intros (? & ? & [=])].
  - cbn [count]. replace (0 <? Z.of_nat (length (p :: rest))) with true
      by (symmetry; apply Z.ltb_lt; cbn [length]; lia).
    cbn. split; [eauto|auto].
  - destruct (navigation _); cbn; split;
      [intuition discriminate|intros (? & ? & [=])|intuition discriminate|intros (? & ? & [=])].
Qed.

(** X12. Template generation does not fail on an analysis: for every
    analysis it returns a template whose id is [custom-] and the time, whose
    base template is a key of the catalog, and whose customizations are the
    colors, typography and layout of the analysis. *)
Theorem generateTemplate_of_analysis (now : Z) (analysis : DesignAnalysis) :
  exists template,
    generateTemplate html_skeleton now (as_object analysis) = Ok template /\
    id template = "custom-" +:+ toString10 now /\
    is_Some (templates !! baseTemplate template) /\
    tc_colors (customizations template) = Some (a_colors analysis) /\
    tc_typography (customizations template) = Some (a_typography analysis) /\
    tc_layout (customizations template) = Some (a_layout analysis) /\
    html_text template = html_skeleton.
Proof.
  unfold generateTemplate.
  rewrite (selectBaseTemplate_layout (as_object analysis) (a_layout analysis) eq_refl).
  rewrite (selectComponents_layout (as_object analysis) (a_layout analysis) eq_refl).
  unfold generateCSS, generateHTML, defined.
  cbn [as_object o_colors o_typography o_layout from_option mbind result_bind].
  eexists. split; [reflexivity|].
  cbn [id baseTemplate customizations tc_colors tc_typography tc_layout html_text].
  split; [reflexivity|]. split; [|repeat split].
  destruct (header _ && footer _); vm_compute; eauto.
Qed.

(** X13. [generateTemplate] returns only for an object that has colors,
    typography and a layout: when one of the three is missing it raises a
    TypeError. *)
Theorem generateTemplate_missing_field (now : Z) (analysis : AnalysisObject) :
  ((exists template, generateTemplate html_skeleton now analysis = Ok template) ->
   is_Some (o_colors analysis) /\ is_Some (o_typography analysis) /\
   is_Some (o_layout analysis)) /\
  (o_colors analysis = None \/ o_typography analysis = None \/ o_layout analysis = None ->
   generateTemplate html_skeleton now analysis = Raise TypeError).
Proof.
  unfold generateTemplate, selectBaseTemplate, selectComponents, generateCSS, generateHTML,
    defined.
  destruct (o_layout analysis) as [layout|]; cbn [from_option mbind result_bind].
  - destruct (o_colors analysis) as [palette|]; cbn [from_option mbind result_bind];
      [destruct (o_typography analysis) as [typography|];
       cbn [from_option mbind result_bind]|].
    + split; [eauto|]. intros [[=]|[[=]|[=]]].
    + split; [intros [? [=]]|reflexivity].
    + split; [intros [? [=]]|reflexivity].
  - split; [intros [? [=]]|reflexivity].
Qed.

End Pipeline.

Lemma generateTemplate_missing_field_witness :
  generateTemplate EmptyString 0 (req_customizations modern_request) = Raise TypeError.
Proof.
  apply (proj2 (generateTemplate_missing_field EmptyString 0
                  (req_customizations modern_request))).
  left. reflexivity.
Defined.

Lemma product_grid_iff_products_witness :
  exists list,
    selectComponents (as_object (analysis_with true false true [lamp])) = Ok list /\
    (In "product-grid" (map component_type list) <->
     exists p rest, products (site_with true false true [lamp]) = Some (p :: rest)).
Proof.
  apply (@product_grid_iff_products keyword_json (site_with true false true [lamp])
           Rejected (analysis_with true false true [lamp]) eq_refl).
Defined.

(** X14. The base template selected is always a key of the catalog, and the
    entry stored under that key carries it as its id. *)
Theorem selectBaseTemplate_in_catalog (analysis : AnalysisObject) (base : string) :
  selectBaseTemplate analysis = Ok base ->
  exists entry, templates !! base = Some entry /\ cat_id entry = base.
Proof.
  unfold selectBaseTemplate. destruct (o_layout analysis) as [layout|]; cbn; [|discriminate].
  destruct (header _ && footer _); intros [= <-]; eexists; (split; [vm_compute; reflexivity|reflexivity]).
Qed.

Lemma selectBaseTemplate_in_catalog_witness :
  exists entry, templates !! "minimal" = Some entry /\ cat_id entry = "minimal".
Proof.
  apply (selectBaseTemplate_in_catalog (req_customizations ad_hoc_request) "minimal").
  reflexivity.
Defined.

Lemma includes_cons (c : ascii) (t sub : string) :
  includes t sub = true -> includes (String c t) sub = true.
Proof. intros Ht. cbn [includes]. rewrite Ht. apply orb_true_r. Qed.

(** Finds the text [sub +:+ ...] after a literal prefix. *)
Ltac includes_here :=
  apply includes_spec; exists EmptyString; eexists;
  repeat (cbn [String.append]; rewrite ?append_assoc); reflexivity.

Ltac includes_walk :=
  first [includes_here | apply includes_cons; includes_walk].

(** X15. When [generateCSS] returns, the object has colors, and the
    stylesheet sets the three color properties to its primary, secondary and
    accent colors and ends with the fixed rule blocks. *)
Theorem generateCSS_colors (analysis : AnalysisObject) (sheet : string) :
  generateCSS analysis = Ok sheet ->
  exists palette,
    o_colors analysis = Some palette /\
    includes sheet ("--color-primary: " +:+ primary palette +:+ ";") = true /\
    includes sheet ("--color-secondary: " +:+ secondary palette +:+ ";") = true /\
    includes sheet ("--color-accent: " +:+ accent palette +:+ ";") = true /\
    exists properties, sheet = properties +:+ css_rules.
Proof.
  unfold generateCSS, defined.
  destruct (o_colors analysis) as [palette|]; cbn [from_option mbind result_bind];
    [|discriminate].
  destruct (o_typography analysis) as [typography|]; cbn [from_option mbind result_bind];
    [|discriminate].
  intros [= <-]. exists palette. split; [reflexivity|].
  unfold stylesheet.
  generalize (primary palette) (secondary palette) (accent palette)
    (family (heading typography)) (interpolate (fallback (heading typography)))
    (family (body typography)) (interpolate (fallback (body typography))).
  intros p s a hf hb bf bb.
  split; [|split; [|split]].
  - cbn [String.append]. includes_walk.
  - do 2 apply includes_append_r. cbn [String.append]. includes_walk.
  - do 4 apply includes_append_r. cbn [String.append]. includes_walk.
  - eexists. rewrite <- !append_assoc. reflexivity.
Qed.

Lemma generateCSS_colors_witness :
  exists palette,
    o_colors (req_customizations ad_hoc_request) = Some palette /\
    exists sheet,
      generateCSS (req_customizations ad_hoc_request) = Ok sheet /\
      includes sheet ("--color-primary: " +:+ primary palette +:+ ";") = true.
Proof.
  destruct (generateCSS_colors (req_customizations ad_hoc_request) _ eq_refl)
    as (palette & Hpalette & Hprimary & _).
  exists palette. split; [exact Hpalette|]. eexists. split; [reflexivity|exact Hprimary].
Defined.

(** ** Store creation *)

Section StoreCreation.

Variable html_skeleton : string.
Variable save : StoreRecord -> result unit.


End StoreCreation.


Lemma between_lower (c : ascii) :
  between 65 90 c = true ->
  between 97 122 (ascii_of_N (N_of_ascii c + 32)) = true.
Proof.
  destruct c as [[] [] [] [] [] [] [] []]; vm_compute; intros Hc;
    first [discriminate Hc | reflexivity].
Qed.

(** X17. The subdomain derived from a store name has only the characters
    [a-z] and [0-9], and deriving again from it changes nothing. *)
Theorem default_subdomain_characters (name : string) :
  all_chars (fun c => between 97 122 c || is_digit c) (default_subdomain name) = true /\
  default_subdomain (default_subdomain name) = default_subdomain name.
Proof.
  assert (Hall : all_chars (fun c => between 97 122 c || is_digit c)
                   (default_subdomain name) = true) by apply all_chars_filter.
  split; [exact Hall|].
  revert Hall. generalize (default_subdomain name). intros s.
  unfold default_subdomain, toLowerCase.
  induction s as [|c s IH]; cbn [all_chars map_chars filter_chars]; [reflexivity|].
  intros [Hc Hs]%andb_true_iff.
  assert (Hupper : between 65 90 c = false).
  { unfold between, is_digit in *. apply orb_true_iff in Hc.
    apply andb_false_iff. rewrite !Z.leb_gt.
    destruct Hc as [[?%Z.leb_le ?%Z.leb_le]%andb_true_iff|[?%Z.leb_le ?%Z.leb_le]%andb_true_iff];
      lia. }
  rewrite Hupper, Hc. f_equal. apply IH, Hs.
Qed.

(** ** Design signals *)

Lemma set_add_elem (x y : string) (set : list string) :
  y ∈ set_add x set <-> y = x \/ y ∈ set.
Proof.
  unfold set_add. case_bool_decide as Hx.
  - split; [auto|]. intros [->|Hy]; assumption.
  - rewrite elem_of_app, list_elem_of_singleton. tauto.
Qed.

Lemma set_add_NoDup (x : string) (set : list string) :
  NoDup set -> NoDup (set_add x set).
Proof.
  intros Hset. unfold set_add. case_bool_decide as Hx; [exact Hset|].
  apply NoDup_app. split; [exact Hset|]. split; [|apply NoDup_singleton].
  intros y Hy ->%list_elem_of_singleton. contradiction.
Qed.

Lemma fold_set_add {A} (get : A -> list string) (elements : list A) (init : list string) :
  NoDup init ->
  NoDup (fold_left (fun set el => foldr set_add set (get el)) elements init) /\
  (forall y, y ∈ fold_left (fun set el => foldr set_add set (get el)) elements init <->
             y ∈ init \/ exists el, el ∈ elements /\ y ∈ get el).
Proof.
  revert init. induction elements as [|el elements IH]; intros init Hinit; cbn [fold_left].
  - split; [exact Hinit|]. intros y. split; [auto|]. intros [Hy|(el & Hel & _)]; [exact Hy|].
    inversion Hel.
  - assert (Hstep : NoDup (foldr set_add init (get el)) /\
                    forall y, y ∈ foldr set_add init (get el) <-> y ∈ get el \/ y ∈ init).
    { induction (get el) as [|x xs [IHn IHm]]; cbn [foldr].
      - split; [exact Hinit|]. intros y. rewrite elem_of_nil. tauto.
      - split; [now apply set_add_NoDup|]. intros y.
        rewrite set_add_elem, IHm, elem_of_cons. tauto. }
    destruct Hstep as [Hnodup Hmem]. destruct (IH _ Hnodup) as [IHn IHm].
    split; [exact IHn|]. intros y. rewrite IHm, Hmem. split.
    + intros [[Hy|Hy]|(el' & Hel' & Hy)]; [right|left; exact Hy|right].
      * exists el. split; [apply elem_of_cons; auto|exact Hy].
      * exists el'. split; [apply elem_of_cons; auto|exact Hy].
    + intros [Hy|(el' & Hel' & Hy)]; [auto|].
      apply elem_of_cons in Hel' as [->|Hel']; [auto|right; eauto].
Qed.

(** X18. The colors extracted from a page have no duplicate; a string is
    among them exactly when it is the color or the background color of some
    element, is not empty and is not the transparent [rgba(0, 0, 0, 0)]. *)
Theorem extractColors_members (elements : list ComputedStyle) :
  NoDup (extractColors elements) /\
  (forall c, c ∈ extractColors elements <->
     c <> EmptyString /\ c <> "rgba(0, 0, 0, 0)" /\
     exists style, style ∈ elements /\
       (c = computed_color style \/ c = computed_backgroundColor style)).
Proof.
  unfold extractColors.
  destruct (fold_set_add (fun style => [computed_backgroundColor style; computed_color style])
              elements [] NoDup_nil_2) as [Hnodup Hmem].
  cbn [foldr] in Hnodup, Hmem.
  split.
  - apply NoDup_ListNoDup, List.NoDup_filter, NoDup_ListNoDup, Hnodup.
  - intros c. rewrite list_elem_of_In, filter_In, <- list_elem_of_In, Hmem.
    rewrite andb_true_iff, !negb_true_iff, !String.eqb_neq, elem_of_nil.
    split.
    + intros [[[]|(style & Hstyle & Hc)] [Hne Htr]]. repeat split; [exact Hne|exact Htr|].
      exists style. split; [exact Hstyle|].
      rewrite !elem_of_cons, elem_of_nil in Hc. tauto.
    + intros (Hne & Htr & style & Hstyle & Hc). split; [|auto].
      right. exists style. split; [exact Hstyle|].
      rewrite !elem_of_cons, elem_of_nil. tauto.
Qed.

(** X19. The font families extracted from a page have no duplicate, and
    they are exactly the [font-family] values of its elements; an empty
    value is kept. *)
Theorem extractFonts_members (elements : list ComputedStyle) :
  NoDup (extractFonts elements) /\
  (forall f, f ∈ extractFonts elements <->
     exists style, style ∈ elements /\ f = computed_fontFamily style).
Proof.
  unfold extractFonts.
  destruct (fold_set_add (fun style => [computed_fontFamily style])
              elements [] NoDup_nil_2) as [Hnodup Hmem].
  cbn [foldr] in Hnodup, Hmem.
  split; [exact Hnodup|]. intros f. rewrite Hmem, elem_of_nil. split.
  - intros [[]|(style & Hstyle & Hf)]. exists style. split; [exact Hstyle|].
    now apply list_elem_of_singleton in Hf.
  - intros (style & Hstyle & ->). right. exists style. split; [exact Hstyle|].
    apply list_elem_of_singleton. reflexivity.
Qed.

(** ** Recommendations and the analysis request *)

Section Requests.

Context `{JsonParser}.

(** X20. [getAIRecommendations] returns the parsed answer exactly when the
    site has a product list and the service answers with a text that
    [JSON.parse] accepts; on every other input it returns the fallback
    object, and without a product list it does so whatever the service
    answers. *)
Theorem getAIRecommendations_parsed_iff (site : ScrapedSite) (reply : ai_reply) :
  (forall j, getAIRecommendations site reply = Ok (Parsed j) <->
     is_Some (products site) /\
     exists content, reply = Content content /\ JSON_parse (default "null" content) = Some j) /\
  ((forall j, getAIRecommendations site reply <> Ok (Parsed j)) ->
     getAIRecommendations site reply = Ok (Fallback fallback_recommendations)) /\
  (products site = None ->
     getAIRecommendations site reply = Ok (Fallback fallback_recommendations)).
Proof.
  unfold getAIRecommendations.
  destruct (products site) as [found|]; cbn.
  - destruct reply as [| |content]; cbn.
    + split; [|auto]. intros j. split; [discriminate|]. intros (_ & content & [=] & _).
    + split; [|auto]. intros j. split; [discriminate|]. intros (_ & content & [=] & _).
    + destruct (JSON_parse (default "null" content)) as [j'|] eqn:Hparse; cbn.
      * split; [|split; [|discriminate]].
        -- intros j. split.
           ++ intros [= <-]. split; [eauto|]. exists content. auto.
           ++ intros (_ & content' & [= <-] & Hj). congruence.
        -- intros Hnever. exfalso. now apply (Hnever j').
      * split; [|auto]. intros j. split; [discriminate|].
        intros (_ & content' & [= <-] & Hj). congruence.
  - split; [|auto]. intros j. split; [discriminate|]. intros ([found [=]] & _).
Qed.

Variable html_skeleton : string.
Variable scrapeWebsite : string -> result ScrapedSite.
Variable base64 : string -> string.

(** X21. [analyzeWebsite] answers with status 400 exactly when the url is
    missing or empty.  With a url, it answers with the analysis when the
    scraper returns a site with a product list all of whose colors
    [hexToRgb] can read after normalisation, and the answer then has the
    url, at most five colors and three fonts, the number of products, and a
    template generated from the analysis; an exception of the scraper is
    answered with status 500. *)
Theorem analyzeWebsite_answers (url : option string) (reply : ai_reply) (now : Z) :
  ((exists message,
      analyzeWebsite html_skeleton scrapeWebsite base64 url reply now = BadRequest message)
   <-> truthy url = None) /\
  (forall address site found,
     truthy url = Some address ->
     scrapeWebsite address = Ok site ->
     products site = Some found ->
     Forall (fun c => is_hex_color (rgbToHex c) = true) (colors (design site)) ->
     exists data,
       analyzeWebsite html_skeleton scrapeWebsite base64 url reply now = Success data /\
       data_sourceUrl data = address /\
       analyzeDesign site reply = Ok (data_analysis data) /\
       generateTemplate html_skeleton now (as_object (data_analysis data))
       = Ok (data_template data) /\
       productsFound (data_scrapedData data) = Z.of_nat (length found) /\
       summary_colors (data_scrapedData data) = take 5 (colors (design site)) /\
       summary_fonts (data_scrapedData data) = take 3 (fonts (design site)) /\
       (length (summary_colors (data_scrapedData data)) <= 5)%nat /\
       (length (summary_fonts (data_scrapedData data)) <= 3)%nat) /\
  (forall address e,
     truthy url = Some address ->
     scrapeWebsite address = Raise e ->
     analyzeWebsite html_skeleton scrapeWebsite base64 url reply now
     = Failure "Failed to analyze website" e).
Proof.
  unfold analyzeWebsite.
  destruct (truthy url) as [address|]; split; [|split| |split]; try discriminate.
  - split; [|discriminate]. intros [message Hm].
    destruct (_ ≫= _) in Hm; discriminate.
  - intros ? site found [= <-] Hsite Hfound Hcolors. rewrite Hsite.
    cbn [mbind result_bind].
    destruct (analyzeColors_hex_colors _ Hcolors) as [palette Hpalette].
    destruct (getAIRecommendations_returns site reply) as [value Hvalue].
    assert (Hanalysis : exists analysis, analyzeDesign site reply = Ok analysis).
    { unfold analyzeDesign. rewrite Hpalette, Hvalue. cbn. eauto. }
    destruct Hanalysis as [analysis Hanalysis]. rewrite Hanalysis.
    cbn [mbind result_bind].
    assert (Htemplate : exists template,
               generateTemplate html_skeleton now (as_object analysis) = Ok template).
    { unfold generateTemplate.
      rewrite (selectBaseTemplate_layout (as_object analysis) (a_layout analysis) eq_refl).
      rewrite (selectComponents_layout (as_object analysis) (a_layout analysis) eq_refl).
      unfold generateCSS, generateHTML, defined.
      cbn [as_object o_colors o_typography o_layout from_option mbind result_bind]. eauto. }
    destruct Htemplate as [template Htemplate]. rewrite Htemplate, Hfound.
    cbn [mbind result_bind defined from_option].
    eexists. split; [reflexivity|].
    cbn [data_sourceUrl data_analysis data_template data_scrapedData productsFound
         summary_colors summary_fonts].
    repeat split; try assumption; rewrite length_take; lia.
  - intros ? e [= <-] Hsite. rewrite Hsite. reflexivity.
  - split; [reflexivity|]. intros _. eexists. reflexivity.
Qed.

End Requests.

(** ** From the page to the template *)

Lemma hexToRgb_of_text (red green blue : Z) :
  0 <= red <= 255 -> 0 <= green <= 255 -> 0 <= blue <= 255 ->
  hexToRgb (rgbToHex (rgb_text red green blue)) = Some {| r := red; g := green; b := blue |}.
Proof.
  intros Hr Hg Hb. rewrite (rgbToHex_text red green blue Hr Hg Hb).
  destruct (channel_ok red Hr) as (_ & _ & r1 & r2 & _ & _ & _ & -> & Hr1 & Hr2 & Vr).
  destruct (channel_ok green Hg) as (_ & _ & g1 & g2 & _ & _ & _ & -> & Hg1 & Hg2 & Vg).
  destruct (channel_ok blue Hb) as (_ & _ & b1 & b2 & _ & _ & _ & -> & Hb1 & Hb2 & Vb).
  unfold hexToRgb. cbn [String.append forallb].
  rewrite !lower_hex_is_hex by assumption. cbn [andb].
  now rewrite Vr, Vg, Vb.
Qed.

(** X22. The usage of a color [rgb(r, g, b)] with channels in 0..255 follows
    the weighted sum 299 r + 587 g + 114 b: [background] above 200000, [text]
    below 50000, [accent] between; a grey of value v is [background] above
    200, [text] below 50. *)
Theorem categorizeColor_of_text (red green blue : Z) :
  0 <= red <= 255 -> 0 <= green <= 255 -> 0 <= blue <= 255 ->
  categorizeColor (rgbToHex (rgb_text red green blue))
  = Ok (if 200000 <? red * 299 + green * 587 + blue * 114 then "background"
        else if red * 299 + green * 587 + blue * 114 <? 50000 then "text"
        else "accent") /\
  (red = green -> green = blue ->
   categorizeColor (rgbToHex (rgb_text red green blue))
   = Ok (if 200 <? red then "background" else if red <? 50 then "text" else "accent")).
Proof.
  intros Hr Hg Hb. unfold categorizeColor.
  rewrite (hexToRgb_of_text red green blue Hr Hg Hb). cbn [r g b].
  split; [reflexivity|]. intros <- <-.
  replace (red * 299 + red * 587 + red * 114) with (red * 1000) by lia.
  destruct (200 <? red) eqn:Hhigh.
  - apply Z.ltb_lt in Hhigh. now replace (200000 <? red * 1000) with true
      by (symmetry; apply Z.ltb_lt; lia).
  - apply Z.ltb_ge in Hhigh. replace (200000 <? red * 1000) with false
      by (symmetry; apply Z.ltb_ge; lia).
    destruct (red <? 50) eqn:Hlow.
    + apply Z.ltb_lt in Hlow. now replace (red * 1000 <? 50000) with true
        by (symmetry; apply Z.ltb_lt; lia).
    + apply Z.ltb_ge in Hlow. now replace (red * 1000 <? 50000) with false
        by (symmetry; apply Z.ltb_ge; lia).
Qed.

Lemma categorizeColor_of_text_witness :
  categorizeColor (rgbToHex (rgb_text 128 128 128)) = Ok "accent".
Proof.
  apply (proj2 (categorizeColor_of_text 128 128 128 ltac:(lia) ltac:(lia) ltac:(lia))
           eq_refl eq_refl).
Defined.

Section PageToTemplate.

Context `{JsonParser}.

(** X23. For the analysis of a site, the base template is [modern] exactly
    when the page has a header and a footer, and the component list has a
    navigation entry exactly when the page has a navigation element. *)
Theorem template_follows_page_flags (site : ScrapedSite) (reply : ai_reply)
    (analysis : DesignAnalysis) :
  analyzeDesign site reply = Ok analysis ->
  (selectBaseTemplate (as_object analysis) = Ok "modern" <->
   hasHeader (layout (design site)) = true /\ hasFooter (layout (design site)) = true) /\
  (selectBaseTemplate (as_object analysis) = Ok "minimal" <->
   hasHeader (layout (design site)) = false \/ hasFooter (layout (design site)) = false) /\
  exists list,
    selectComponents (as_object analysis) = Ok list /\
    (In "navigation" (map component_type list) <-> hasNav (layout (design site)) = true).
Proof.
  intros (_ & _ & Hlayout & _ & _)%analyzeDesign_inv.
  rewrite (selectBaseTemplate_layout (as_object analysis) (a_layout analysis) eq_refl).
  rewrite (selectComponents_layout (as_object analysis) (a_layout analysis) eq_refl).
  rewrite Hlayout. cbn [analyzeLayout structure header footer navigation].
  split; [|split].
  - destruct (hasHeader _), (hasFooter _); cbn; split; try discriminate; intuition discriminate.
  - destruct (hasHeader _), (hasFooter _); cbn; split; try discriminate; intuition discriminate.
  - eexists. split; [reflexivity|].
    destruct (o_products (as_object analysis)) as [summary|];
      [destruct (0 <? count summary)|]; destruct (hasNav _); cbn;
      split; try discriminate; intuition discriminate.
Qed.

(** X24. For the analysis of a site with at least one font, the stylesheet
    sets [--font-heading] to the family of the first font and the fallback
    stack of its category. *)
Theorem stylesheet_heading_font (site : ScrapedSite) (reply : ai_reply)
    (analysis : DesignAnalysis) (font : string) (rest : list string) :
  analyzeDesign site reply = Ok analysis ->
  fonts (design site) = font :: rest ->
  exists sheet,
    generateCSS (as_object analysis) = Ok sheet /\
    includes sheet ("--font-heading: " +:+ clean_font font +:+ ", "
                    +:+ getFontFallback (clean_font font) +:+ ";") = true.
Proof.
  intros (_ & Htypography & _)%analyzeDesign_inv Hfonts.
  unfold generateCSS, defined.
  cbn [as_object o_colors o_typography from_option mbind result_bind].
  rewrite Htypography, Hfonts.
  cbn [analyzeTypography map lookup list_lookup default from_option Datatypes.id
       heading body process_font family fallback interpolate].
  eexists. split; [reflexivity|].
  unfold stylesheet.
  generalize (primary (a_colors analysis)) (secondary (a_colors analysis))
    (accent (a_colors analysis)) (clean_font font) (getFontFallback (clean_font font)).
  intros p s a hf hb.
  do 6 apply includes_append_r. cbn [String.append]. includes_walk.
Qed.

End PageToTemplate.

Lemma template_follows_page_flags_witness :
  selectBaseTemplate (as_object (analysis_with true true false [])) = Ok "minimal" <->
  hasHeader (layout (design (site_with true true false []))) = false \/
  hasFooter (layout (design (site_with true true false []))) = false.
Proof.
  apply (@template_follows_page_flags keyword_json (site_with true true false []) Rejected
           (analysis_with true true false []) eq_refl).
Defined.

Lemma stylesheet_heading_font_witness :
  exists analysis sheet,
    @analyzeDesign keyword_json (sample_site [] ["'Times New Roman', serif"]) Rejected
    = Ok analysis /\
    generateCSS (as_object analysis) = Ok sheet /\
    includes sheet "--font-heading: Times New Roman, Georgia, serif;" = true.
Proof.
  eexists. 
  destruct (@stylesheet_heading_font keyword_json
              (sample_site [] ["'Times New Roman', serif"]) Rejected _
              "'Times New Roman', serif" [] eq_refl eq_refl) as (sheet & Hsheet & Hfont).
  exists sheet. split; [reflexivity|]. split; [exact Hsheet|exact Hfont].
Defined.

(** ** Extracted products *)

(** X25. The name and the price of every extracted product are trimmed:
    neither starts nor ends with white space. *)
Theorem extractProducts_trimmed (page : list node) :
  Forall (fun p => no_outer_space (name p) /\ no_outer_space (price p))
         (extractProducts page).
Proof.
  destruct (extract_loop_first_match page productSelectors)
    as [[_ Hnone]|(_ & sel & _ & _ & _ & _ & Hsome)];
    fold (extractProducts page) in *.
  - rewrite Hnone. constructor.
  - rewrite Hsome. apply List.Forall_forall. intros p [el [<- _]]%in_map_iff.
    split; apply trim_ends.
Qed.

(** ** Runs of the properties above on the example inputs *)

Lemma analyzeDesign_raises_iff_witness :
  @analyzeDesign keyword_json (sample_site ["rgb(300, 0, 0)"] []) Rejected = Raise TypeError.
Proof.
  apply (proj1 (@analyzeDesign_raises_iff keyword_json
                  (sample_site ["rgb(300, 0, 0)"] []) Rejected)).
  left. reflexivity.
Defined.

Lemma getAIRecommendations_parsed_iff_witness :
  @getAIRecommendations keyword_json site_without_products (Content (Some "true"))
  = Ok (Fallback fallback_recommendations).
Proof.
  apply (proj2 (proj2 (@getAIRecommendations_parsed_iff keyword_json
                         site_without_products (Content (Some "true"))))).
  reflexivity.
Defined.

Lemma analyzeWebsite_answers_witness :
  exists data,
    @analyzeWebsite keyword_json EmptyString
      (fun _ => Ok (site_with true false true [lamp])) (fun bytes => bytes)
      (Some "https://shop.example") Rejected 0
    = Success data /\
    productsFound (data_scrapedData data) = 1.
Proof.
  destruct (proj1 (proj2 (@analyzeWebsite_answers keyword_json EmptyString
                            (fun _ => Ok (site_with true false true [lamp]))
                            (fun bytes => bytes)
                            (Some "https://shop.example") Rejected 0))
              "https://shop.example" (site_with true false true [lamp]) [lamp]
              eq_refl eq_refl eq_refl (List.Forall_nil _))
    as (data & Hdata & _ & _ & _ & Hfound & _).
  exists data. split; [exact Hdata|exact Hfound].
Defined.
